(** * Agenda de Citas Medicas (app.py): patients, appointments, conflicts

    A shallow embedding of the request handlers of [app.py] and of the
    Python library calls they rely on ([str.strip], [str.lower], [int],
    [datetime.strptime], [sorted], insertion-ordered [dict]), followed by
    the properties of the registry and the scheduler.

    Characters are code points below 256 (the Latin-1 block), carried by
    [ascii]; on that block the tables below are the ones CPython uses. *)

From Stdlib Require Import ZArith NArith List String Ascii Bool Lia.
From Stdlib Require Import Sorting.Sorted Sorting.Permutation.
Import ListNotations.

Local Open Scope string_scope.
Local Open Scope list_scope.
Local Open Scope Z_scope.

(** ** Python library models *)

Module Py.

(** *** Characters *)

Definition code (c : ascii) : N := N_of_ascii c.

Definition in_range (lo hi : N) (c : ascii) : bool :=
  ((lo <=? code c) && (code c <=? hi))%N.

(** [str.isspace] on one code point; also the class [\s] of [re]. *)
Definition isspace (c : ascii) : bool :=
  in_range 9 13 c || in_range 28 32 c
  || (code c =? 133)%N || (code c =? 160)%N.

(** The whitespace [int()] skips around a literal: no 0x1c..0x1f. *)
Definition int_space (c : ascii) : bool :=
  in_range 9 13 c || (code c =? 32)%N
  || (code c =? 133)%N || (code c =? 160)%N.

(** Decimal digits, the class [\d] of [re]. *)
Definition isdigit (c : ascii) : bool := in_range 48 57 c.

Definition digit_val (c : ascii) : Z := Z.of_N (code c) - 48.

(** [str.lower] on one code point: A-Z and the accented capitals
    0xC0..0xDE except the multiplication sign 0xD7. *)
Definition lower_char (c : ascii) : ascii :=
  if in_range 65 90 c || (in_range 192 222 c && negb (code c =? 215)%N)
  then ascii_of_N (code c + 32)
  else c.

(** *** Strings *)

Fixpoint lower (s : string) : string :=
  match s with
  | EmptyString => EmptyString
  | String c s' => String (lower_char c) (lower s')
  end.

Fixpoint lstrip_by (sp : ascii -> bool) (s : string) : string :=
  match s with
  | EmptyString => EmptyString
  | String c s' => if sp c then lstrip_by sp s' else s
  end.

Fixpoint rstrip_by (sp : ascii -> bool) (s : string) : string :=
  match s with
  | EmptyString => EmptyString
  | String c s' =>
      match rstrip_by sp s' with
      | EmptyString => if sp c then EmptyString else String c EmptyString
      | r => String c r
      end
  end.

Definition strip_by (sp : ascii -> bool) (s : string) : string :=
  rstrip_by sp (lstrip_by sp s).

(** [s.strip()] *)
Definition strip (s : string) : string := strip_by isspace s.

(** Truthiness of a [str]: non-empty. *)
Definition truthy (s : string) : bool :=
  match s with EmptyString => false | String _ _ => true end.

(** *** [int(s)] in base 10

    Surrounding whitespace, one optional sign, then groups of digits
    separated by single underscores; [None] stands for [ValueError].
    Literals of more than 4300 digits are refused (the default
    [sys.int_info.default_max_str_digits]). *)

Fixpoint int_body (s : string) (after_digit : bool) (acc : Z) (n : N)
  : option (Z * N) :=
  match s with
  | EmptyString => if after_digit then Some (acc, n) else None
  | String c s' =>
      if isdigit c then int_body s' true (10 * acc + digit_val c) (n + 1)
      else if (code c =? 95)%N && after_digit then int_body s' false acc n
      else None
  end.

Definition max_str_digits : N := 4300.

Definition int_unsigned (s : string) : option Z :=
  match int_body s false 0 0 with
  | Some (v, n) => if (max_str_digits <? n)%N then None else Some v
  | None => None
  end.

Definition int (s : string) : option Z :=
  match strip_by int_space s with
  | String "+" r => int_unsigned r
  | String "-" r => option_map Z.opp (int_unsigned r)
  | t => int_unsigned t
  end.

(** *** [datetime] and [datetime.strptime(s, "%Y-%m-%d %H:%M")] *)

Record datetime : Type := mkDatetime
  { year : Z; month : Z; day : Z; hour : Z; minute : Z }.

Definition is_leap (y : Z) : bool :=
  (y mod 4 =? 0) && (negb (y mod 100 =? 0) || (y mod 400 =? 0)).

Definition days_in_month (y m : Z) : Z :=
  if m =? 2 then (if is_leap y then 29 else 28)
  else if (m =? 4) || (m =? 6) || (m =? 9) || (m =? 11) then 30
  else 31.

(** The constructor's range checks ([ValueError] otherwise). *)
Definition make_datetime (y m d h mi : Z) : option datetime :=
  if (1 <=? y) && (y <=? 9999) && (1 <=? m) && (m <=? 12)
     && (1 <=? d) && (d <=? days_in_month y m)
     && (0 <=? h) && (h <=? 23) && (0 <=? mi) && (mi <=? 59)
  then Some (mkDatetime y m d h mi)
  else None.

(** One alternative of a directive's regex: the value it captures and
    the rest of the input, or [None] when it does not match here. *)
Definition alternative : Type := string -> option (Z * string).

Definition one (p : ascii -> bool) : alternative := fun s =>
  match s with
  | String c r => if p c then Some (digit_val c, r) else None
  | EmptyString => None
  end.

Definition two (p q : ascii -> bool) : alternative := fun s =>
  match s with
  | String c (String d r) =>
      if p c && q d then Some (10 * digit_val c + digit_val d, r) else None
  | _ => None
  end.

(** A leading blank, then one digit: the last alternative of [%d]. *)
Definition blank_then (p : ascii -> bool) : alternative := fun s =>
  match s with
  | String c (String d r) =>
      if (code c =? 32)%N && p d then Some (digit_val d, r) else None
  | _ => None
  end.

Definition is1 (lo hi : N) : ascii -> bool := in_range (48 + lo) (48 + hi).

(* (?P<m>1[0-2]|0[1-9]|[1-9]) *)
Definition re_m : list alternative :=
  [ two (is1 1 1) (is1 0 2); two (is1 0 0) (is1 1 9); one (is1 1 9) ].

(* (?P<d>3[0-1]|[1-2]\d|0[1-9]|[1-9]| [1-9]) *)
Definition re_d : list alternative :=
  [ two (is1 3 3) (is1 0 1); two (is1 1 2) isdigit; two (is1 0 0) (is1 1 9);
    one (is1 1 9); blank_then (is1 1 9) ].

(* (?P<H>2[0-3]|[0-1]\d|\d) *)
Definition re_H : list alternative :=
  [ two (is1 2 2) (is1 0 3); two (is1 0 1) isdigit; one isdigit ].

(* (?P<M>[0-5]\d|\d) *)
Definition re_M : list alternative :=
  [ two (is1 0 5) isdigit; one isdigit ].

(* (?P<Y>\d\d\d\d) *)
Definition re_Y : list alternative :=
  [ fun s =>
      match s with
      | String a (String b (String c (String d r))) =>
          if isdigit a && isdigit b && isdigit c && isdigit d
          then Some (1000 * digit_val a + 100 * digit_val b
                     + 10 * digit_val c + digit_val d, r)
          else None
      | _ => None
      end ].

Section Backtracking.
Context {R : Type}.

(** Ordered alternation followed by the rest of the pattern [k]: the
    first alternative after which the rest matches wins. *)
Fixpoint alt (alts : list alternative) (s : string)
              (k : Z -> string -> option R) : option R :=
  match alts with
  | [] => None
  | a :: more =>
      match a s with
      | Some (v, r) =>
          match k v r with
          | Some res => Some res
          | None => alt more s k
          end
      | None => alt more s k
      end
  end.

(** A literal character of the format. *)
Definition lit (ch : ascii) (s : string) (k : string -> option R)
  : option R :=
  match s with
  | String c r => if Ascii.eqb c ch then k r else None
  | EmptyString => None
  end.

(** [\s+], greedy: as many blanks as possible, giving them back one
    at a time while the rest of the pattern fails. *)
Fixpoint spaces (s : string) (k : string -> option R) : option R :=
  match s with
  | String c r =>
      if isspace c then
        match spaces r k with
        | Some res => Some res
        | None => k r
        end
      else None
  | EmptyString => None
  end.
End Backtracking.

(** [format_regex.match(data_string)]: the captured groups and the
    unconverted tail. *)
Definition regex_match (s : string) : option (Z * Z * Z * Z * Z * string) :=
  alt re_Y s (fun y s1 =>
  lit "-" s1 (fun s2 =>
  alt re_m s2 (fun m s3 =>
  lit "-" s3 (fun s4 =>
  alt re_d s4 (fun d s5 =>
  spaces s5 (fun s6 =>
  alt re_H s6 (fun h s7 =>
  lit ":" s7 (fun s8 =>
  alt re_M s8 (fun mi rest =>
  Some (y, m, d, h, mi, rest)))))))))).

Definition strptime (s : string) : option datetime :=
  match regex_match s with
  | Some (y, m, d, h, mi, rest) =>
      match rest with
      | EmptyString => make_datetime y m d h mi
      | String _ _ => None
      end
  | None => None
  end.

(** Comparison of two naive datetimes: field by field, most significant
    first. *)
Fixpoint lex_ltb (a b : list Z) : bool :=
  match a, b with
  | x :: a', y :: b' => (x <? y) || ((x =? y) && lex_ltb a' b')
  | [], _ :: _ => true
  | _, [] => false
  end.

Definition fields (d : datetime) : list Z :=
  [year d; month d; day d; hour d; minute d].

Definition dt_ltb (a b : datetime) : bool := lex_ltb (fields a) (fields b).

(** Neither is before the other: the two compare equal. *)
Definition dt_same (a b : datetime) : bool :=
  negb (dt_ltb a b) && negb (dt_ltb b a).

(** *** [sorted(iterable, key=...)]

    The keys are computed once, in order, and an exception of the key
    function ([None]) aborts the call; the sort itself only asks
    [key x < key y] and is stable. *)
Section Sorted.
Context {A K : Type}.
Variable ltb : K -> K -> bool.
Variable key : A -> option K.

Fixpoint decorate (l : list A) : option (list (K * A)) :=
  match l with
  | [] => Some []
  | x :: l' =>
      match key x with
      | None => None
      | Some k =>
          match decorate l' with
          | None => None
          | Some r => Some ((k, x) :: r)
          end
      end
  end.

(** [x] goes in front of the first element that is not before it. *)
Fixpoint insert (x : K * A) (l : list (K * A)) : list (K * A) :=
  match l with
  | [] => [x]
  | y :: l' => if ltb (fst y) (fst x) then y :: insert x l' else x :: l
  end.

Fixpoint sort (l : list (K * A)) : list (K * A) :=
  match l with
  | [] => []
  | x :: l' => insert x (sort l')
  end.

Definition sorted (l : list A) : option (list A) :=
  option_map (fun d => map snd (sort d)) (decorate l).
End Sorted.

(** *** [dict] with integer keys, in insertion order *)
Section Dict.
Context {V : Type}.

Definition dict : Type := list (Z * V).

(** [k in d] *)
Definition contains (k : Z) (d : dict) : bool :=
  existsb (fun kv => fst kv =? k) d.

(** [d.get(k)] *)
Fixpoint get (k : Z) (d : dict) : option V :=
  match d with
  | [] => None
  | (k', v) :: d' => if k' =? k then Some v else get k d'
  end.

(** [d[k] = v]: an existing key keeps its place, a new one goes last. *)
Fixpoint set (k : Z) (v : V) (d : dict) : dict :=
  match d with
  | [] => [(k, v)]
  | (k', v') :: d' =>
      if k' =? k then (k, v) :: d' else (k', v') :: set k v d'
  end.

(** [d] with the entry under [k] taken out, the others in their order. *)
Definition without (k : Z) (d : dict) : dict :=
  filter (fun kv => negb (fst kv =? k)) d.

(** [del d[k]]; [None] stands for [KeyError]. *)
Definition del (k : Z) (d : dict) : option dict :=
  if contains k d then Some (without k d) else None.

Definition items (d : dict) : list (Z * V) := d.
Definition values (d : dict) : list V := map snd d.
Definition keys (d : dict) : list Z := map fst d.
End Dict.
Arguments dict : clear implicits.

(** [request.form.get(name, default)] *)
Definition form_get (field : option string) (default : string) : string :=
  match field with
  | Some s => s
  | None => default
  end.

End Py.

(** ** The application *)

(** *** "Base de datos" en memoria *)

Record patient : Type := mkPatient
  { nombre : string; documento : string; telefono : string; correo : string }.

Record appointment : Type := mkAppointment
  { paciente_id : Z; fecha : string; hora : string; medico : string;
    estado : string }.

(** The four module-level globals; a counter holds the value its next
    [next()] returns. *)
Record store : Type := mkStore
  { patients : Py.dict patient;
    appointments : Py.dict appointment;
    pid_counter : Z;
    aid_counter : Z }.

(** The stores as the module creates them, before any request. *)
Definition init : store := mkStore [] [] 1 1.

(** *** Utilidades *)

Definition parse_datetime (date_str time_str : string) : option Py.datetime :=
  Py.strptime (date_str ++ " " ++ time_str)%string.

(** Trim, then lowercase: the form in which doctors and documents are
    compared. *)
Definition normalize (s : string) : string := Py.lower (Py.strip s).

(** [if exclude_appointment_id and a_id == exclude_appointment_id]:
    [None] and [0] are both falsy. *)
Definition excluded (exclude_appointment_id : option Z) (a_id : Z) : bool :=
  match exclude_appointment_id with
  | Some e => negb (e =? 0) && (a_id =? e)
  | None => false
  end.

Fixpoint has_conflict (aps : Py.dict appointment) (medico0 fecha0 hora0 : string)
                      (exclude_appointment_id : option Z) : bool :=
  match aps with
  | [] => false
  | (a_id, a) :: rest =>
      if excluded exclude_appointment_id a_id
      then has_conflict rest medico0 fecha0 hora0 exclude_appointment_id
      else if String.eqb (Py.lower (Py.strip (medico a)))
                         (Py.lower (Py.strip medico0))
              && String.eqb (fecha a) fecha0 && String.eqb (hora a) hora0
      then true
      else has_conflict rest medico0 fecha0 hora0 exclude_appointment_id
  end.

Definition keyfun (item : Z * appointment) : option Py.datetime :=
  let '(_, a) := item in parse_datetime (fecha a) (hora a).

(** [None]: the key function raised on some stored record. *)
Definition upcoming_sorted (aps : Py.dict appointment)
  : option (list (Z * appointment)) :=
  Py.sorted Py.dt_ltb keyfun (Py.items aps).

(** *** Rutas *)

(** What a handler flashes before it redirects. *)
Inductive error : Type :=
  | ValidationError         (* Todos los campos son obligatorios. *)
  | DuplicateDocumentError  (* Ya existe un paciente con ese documento. *)
  | InvalidPatientError     (* Paciente no valido o no seleccionado. *)
  | InvalidDateTimeError    (* Fecha u hora con formato invalido. *)
  | MissingDoctorError      (* Debe seleccionar un medico. *)
  | ConflictError           (* Conflicto de agenda: ... *)
  | NotFoundError.          (* La cita no existe. *)

Inductive result : Type :=
  | PatientCreated (p_id : Z)
  | AppointmentCreated (a_id : Z)
  | AppointmentCancelled (appointment_id : Z)
  | Failed (e : error)
  | Raised.                 (* an exception left the handler *)

(** The rows [home] hands to the template; [None] when sorting raised. *)
Definition home (st : store) (medico_arg : option string)
  : option (list (Z * appointment)) :=
  let medico_filter := Py.strip (Py.form_get medico_arg "") in
  match upcoming_sorted (appointments st) with
  | None => None
  | Some ordered =>
      Some (if Py.truthy medico_filter
            then filter (fun item =>
                           String.eqb (Py.lower (Py.strip (medico (snd item))))
                                      (Py.lower (Py.strip medico_filter)))
                        ordered
            else ordered)
  end.

Definition patients_page (st : store) : list (Z * patient) :=
  Py.items (patients st).

(** The loop over [patients.values()] looking for the same document. *)
Fixpoint documento_taken (ps : list patient) (documento0 : string) : bool :=
  match ps with
  | [] => false
  | p :: rest =>
      if String.eqb (Py.lower (Py.strip (documento p))) (Py.lower documento0)
      then true
      else documento_taken rest documento0
  end.

Definition create_patient (st : store)
    (nombre_f documento_f telefono_f correo_f : option string)
  : store * result :=
  let nombre0 := Py.strip (Py.form_get nombre_f "") in
  let documento0 := Py.strip (Py.form_get documento_f "") in
  let telefono0 := Py.strip (Py.form_get telefono_f "") in
  let correo0 := Py.strip (Py.form_get correo_f "") in
  if negb (forallb Py.truthy [nombre0; documento0; telefono0; correo0])
  then (st, Failed ValidationError)
  else if documento_taken (Py.values (patients st)) documento0
  then (st, Failed DuplicateDocumentError)
  else
    let p_id := pid_counter st in
    (mkStore (Py.set p_id (mkPatient nombre0 documento0 telefono0 correo0)
                     (patients st))
             (appointments st) (pid_counter st + 1) (aid_counter st),
     PatientCreated p_id).

(** [int(request.form.get("paciente_id", "0"))], [0] on [ValueError]. *)
Definition paciente_id_of (paciente_id_f : option string) : Z :=
  match Py.int (Py.form_get paciente_id_f "0") with
  | Some n => n
  | None => 0
  end.

Definition create_appointment (st : store)
    (paciente_id_f fecha_f hora_f medico_f : option string)
  : store * result :=
  let paciente_id0 := paciente_id_of paciente_id_f in
  let fecha0 := Py.strip (Py.form_get fecha_f "") in
  let hora0 := Py.strip (Py.form_get hora_f "") in
  let medico0 := Py.strip (Py.form_get medico_f "") in
  if negb (Py.contains paciente_id0 (patients st))
  then (st, Failed InvalidPatientError)
  else
    match parse_datetime fecha0 hora0 with
    | None => (st, Failed InvalidDateTimeError)
    | Some _ =>
        if negb (Py.truthy medico0)
        then (st, Failed MissingDoctorError)
        else if has_conflict (appointments st) medico0 fecha0 hora0 None
        then (st, Failed ConflictError)
        else
          let a_id := aid_counter st in
          (mkStore (patients st)
                   (Py.set a_id
                      (mkAppointment paciente_id0 fecha0 hora0 medico0
                                     "Programada")
                      (appointments st))
                   (pid_counter st) (aid_counter st + 1),
           AppointmentCreated a_id)
    end.

Definition cancel_appointment (st : store) (appointment_id : Z)
  : store * result :=
  if negb (Py.contains appointment_id (appointments st))
  then (st, Failed NotFoundError)
  else
    match Py.del appointment_id (appointments st) with
    | Some aps =>
        (mkStore (patients st) aps (pid_counter st) (aid_counter st),
         AppointmentCancelled appointment_id)
    | None => (st, Raised)
    end.

(** *** Sequences of requests *)

Inductive request : Type :=
  | PostPatient (nombre_f documento_f telefono_f correo_f : option string)
  | PostAppointment (paciente_id_f fecha_f hora_f medico_f : option string)
  | PostCancel (appointment_id : Z).

Definition handle (st : store) (rq : request) : store * result :=
  match rq with
  | PostPatient n d t c => create_patient st n d t c
  | PostAppointment p f h m => create_appointment st p f h m
  | PostCancel i => cancel_appointment st i
  end.

(** The requests are served one after the other. *)
Fixpoint run (st : store) (rqs : list request) : store * list result :=
  match rqs with
  | [] => (st, [])
  | rq :: more =>
      let '(st1, r) := handle st rq in
      let '(st2, rs) := run st1 more in
      (st2, r :: rs)
  end.

(** *** Datos semilla *)

(** "Juan Perez", with the accented e of the source (code point 233). *)
Definition juan_perez : string :=
  ("Juan P" ++ String (ascii_of_N 233) "rez")%string.

(** Two sample patients, only into an empty registry. *)
Definition seed_demo (st : store) : store :=
  match patients st with
  | [] =>
      let p1 := pid_counter st in
      let ps1 :=
        Py.set p1 (mkPatient juan_perez "CC-1001" "3000000001"
                             "juan@example.com")
               (patients st) in
      let p2 := p1 + 1 in
      let ps2 :=
        Py.set p2 (mkPatient "Ana Ruiz" "CC-1002" "3000000002"
                             "ana@example.com")
               ps1 in
      mkStore ps2 (appointments st) (p2 + 1) (aid_counter st)
  | _ :: _ => st
  end.

(** The server starts on the empty stores, or, run as a script, on the
    seeded ones; then it serves requests. *)
Definition reachable (st : store) : Prop :=
  exists s0 rqs, (s0 = init \/ s0 = seed_demo init) /\ fst (run s0 rqs) = st.

(** ** Vocabulary of the properties *)

(** Two records book the same doctor (normalised) at the same date and
    time strings. *)
Definition clash (a b : appointment) : bool :=
  String.eqb (normalize (medico a)) (normalize (medico b))
  && String.eqb (fecha a) (fecha b) && String.eqb (hora a) (hora b).

Definition no_clash (aps : Py.dict appointment) : Prop :=
  forall i a j b,
    In (i, a) aps -> In (j, b) aps -> i <> j -> clash a b = false.

(** The stored date and time parse. *)
Definition parses (item : Z * appointment) : Prop := keyfun item <> None.

(** [x] is not after [y] in the order of the sort keys. *)
Definition key_le (x y : Z * appointment) : Prop :=
  match keyfun x, keyfun y with
  | Some kx, Some ky => Py.dt_ltb ky kx = false
  | _, _ => False
  end.

(** The sort key of [item] compares equal to [d]. *)
Definition key_same (d : Py.datetime) (item : Z * appointment) : bool :=
  match keyfun item with
  | Some k => Py.dt_same k d
  | None => false
  end.

(** The doctor filter of [home]. *)
Definition by_doctor (who : string) (item : Z * appointment) : bool :=
  String.eqb (normalize (medico (snd item))) (normalize who).

(** On the decorated pairs of [sorted]: the second is not before the
    first, and the key stored next to an element is that element's key. *)
Definition dec_le {A K : Type} (ltb : K -> K -> bool) (x y : K * A) : Prop :=
  ltb (fst y) (fst x) = false.

Definition coherent {A K : Type} (key : A -> option K) (p : K * A) : Prop :=
  key (snd p) = Some (fst p).

(** Two keys that [ltb] does not separate. *)
Definition tied {K : Type} (ltb : K -> K -> bool) (a b : K) : bool :=
  negb (ltb a b) && negb (ltb b a).

(** What [itertools.count(start)] yields in its first [n] calls. *)
Fixpoint count_from (start : Z) (n : nat) : list Z :=
  match n with
  | O => []
  | S n' => start :: count_from (start + 1) n'
  end.

(** The identifiers handed out in a sequence of responses. *)
Definition patient_ids (rs : list result) : list Z :=
  flat_map (fun r => match r with PatientCreated i => [i] | _ => [] end) rs.

Definition appointment_ids (rs : list result) : list Z :=
  flat_map (fun r => match r with AppointmentCreated i => [i] | _ => [] end) rs.

(** What every sequence of requests maintains. *)
Record wf (st : store) : Prop := mkWf
  { wf_pcount : 1 <= pid_counter st;
    wf_acount : 1 <= aid_counter st;
    wf_pids : Forall (fun k => 1 <= k < pid_counter st) (Py.keys (patients st));
    wf_aids : Forall (fun k => 1 <= k < aid_counter st)
                     (Py.keys (appointments st));
    wf_punique : NoDup (Py.keys (patients st));
    wf_aunique : NoDup (Py.keys (appointments st));
    wf_parses : Forall parses (appointments st);
    wf_estado : Forall (fun item => estado (snd item) = "Programada")
                       (appointments st);
    wf_free : no_clash (appointments st) }.

(** *** A running example

    One patient; Dr. Lopez at 10:00, the same slot asked again in other
    letters and blanks, Dr. Perez at 09:00, Dr. Ramirez at the same
    instant written 9:00, a lookup of a missing appointment. *)
Definition juan : request :=
  PostPatient (Some "Juan Perez") (Some "CC-1001") (Some "3000000001")
              (Some "juan@example.com").

Definition book (who at_time : string) : request :=
  PostAppointment (Some "1") (Some "2025-03-10") (Some at_time) (Some who).

Definition demo : list request :=
  [ juan; book "Dr. Lopez" "10:00"; book "  dr. LOPEZ " "10:00";
    book "Dr. Perez" "09:00"; book "Dra. Ramirez" "9:00"; PostCancel 7 ].

Definition demo_store : store := fst (run init demo).

(** The example continued: appointment 3 is cancelled, then one more is
    booked. *)
Definition demo_again : list request :=
  demo ++ [ PostCancel 3; book "Dra. Gonzalez" "11:00" ].

Definition cita (who at_time : string) : appointment :=
  mkAppointment 1 "2025-03-10" at_time who "Programada".

(** *** The row of the agenda table

    [{% set p = patients.get(a['paciente_id']) %}]: the patient shown next
    to an appointment, [None] when the template prints a dash. *)
Definition row_patient (st : store) (a : appointment) : option patient :=
  Py.get (paciente_id a) (patients st).

(** *** Further vocabulary *)

Definition trimmed (s : string) : Prop := Py.strip s = s.

(** The four fields as [create_patient] leaves them. *)
Definition patient_ok (p : patient) : Prop :=
  (trimmed (nombre p) /\ nombre p <> "")
  /\ (trimmed (documento p) /\ documento p <> "")
  /\ (trimmed (telefono p) /\ telefono p <> "")
  /\ (trimmed (correo p) /\ correo p <> "").

(** The text fields as [create_appointment] leaves them. *)
Definition slot_ok (a : appointment) : Prop :=
  trimmed (fecha a) /\ trimmed (hora a)
  /\ trimmed (medico a) /\ medico a <> "".

(** A second group of facts every sequence of requests maintains. *)
Record tidy (st : store) : Prop := mkTidy
  { tidy_pkeys :
      Py.keys (patients st) = count_from 1 (List.length (patients st));
    tidy_pcount :
      pid_counter st = 1 + Z.of_nat (List.length (patients st));
    tidy_akeys : StronglySorted Z.lt (Py.keys (appointments st));
    tidy_docs :
      forall i p j q,
        In (i, p) (patients st) -> In (j, q) (patients st) -> i <> j ->
        normalize (documento p) <> normalize (documento q);
    tidy_pfields : Forall (fun item => patient_ok (snd item)) (patients st);
    tidy_afields :
      Forall (fun item =>
                slot_ok (snd item)
                /\ Py.contains (paciente_id (snd item)) (patients st) = true)
             (appointments st) }.

(** *** Date and time order, read off the records

    The instant an appointment names: its own date and time strings, read
    under "%Y-%m-%d %H:%M".  The order of instants is written out field
    by field; nothing here goes through the key function of the sort or
    through the comparison the sort uses. *)
Definition instant (a : appointment) : option Py.datetime :=
  Py.strptime (fecha a ++ " " ++ hora a)%string.

Definition dated (item : Z * appointment) : Prop := instant (snd item) <> None.

Definition earlier (a b : Py.datetime) : Prop :=
  Py.year a < Py.year b
  \/ (Py.year a = Py.year b
      /\ (Py.month a < Py.month b
          \/ (Py.month a = Py.month b
              /\ (Py.day a < Py.day b
                  \/ (Py.day a = Py.day b
                      /\ (Py.hour a < Py.hour b
                          \/ (Py.hour a = Py.hour b
                              /\ Py.minute a < Py.minute b))))))).

(** [x] is at the instant of [y] or before it. *)
Definition not_after (x y : Z * appointment) : Prop :=
  exists kx ky,
    instant (snd x) = Some kx /\ instant (snd y) = Some ky
    /\ (earlier kx ky \/ kx = ky).

Definition same_fields (a b : Py.datetime) : bool :=
  (Py.year a =? Py.year b) && (Py.month a =? Py.month b)
  && (Py.day a =? Py.day b) && (Py.hour a =? Py.hour b)
  && (Py.minute a =? Py.minute b).

(** [item] is at the instant [d]. *)
Definition at_instant (d : Py.datetime) (item : Z * appointment) : bool :=
  match instant (snd item) with
  | Some k => same_fields k d
  | None => false
  end.

(** The order of the agenda: by instant, then by identifier. *)
Definition agenda_lt (x y : Z * appointment) : Prop :=
  exists kx ky,
    instant (snd x) = Some kx /\ instant (snd y) = Some ky
    /\ (earlier kx ky \/ (kx = ky /\ fst x < fst y)).

(** *** The calendar, stated on its own *)

Definition leap_year (y : Z) : Prop :=
  y mod 4 = 0 /\ (y mod 100 <> 0 \/ y mod 400 = 0).

Definition on_calendar (d : Py.datetime) : Prop :=
  1 <= Py.year d <= 9999
  /\ 1 <= Py.month d <= 12
  /\ 1 <= Py.day d <= 31
  /\ (In (Py.month d) [4; 6; 9; 11] -> Py.day d <= 30)
  /\ (Py.month d = 2 -> Py.day d <= 29)
  /\ (Py.month d = 2 -> Py.day d = 29 -> leap_year (Py.year d))
  /\ 0 <= Py.hour d <= 23
  /\ 0 <= Py.minute d <= 59.

(** The values a date and a time control of the booking form submit:
    four digits, two and two; two and two. *)
Definition digit_char (n : Z) : ascii := ascii_of_N (48 + Z.to_N n).

Definition pad2 (n : Z) : string :=
  String (digit_char (n / 10)) (String (digit_char (n mod 10)) "").

Definition pad4 (n : Z) : string :=
  String (digit_char (n / 1000))
    (String (digit_char (n / 100 mod 10)) (pad2 (n mod 100))).

Definition iso_date (y m d : Z) : string :=
  (pad4 y ++ "-" ++ pad2 m ++ "-" ++ pad2 d)%string.

Definition iso_time (h mi : Z) : string := (pad2 h ++ ":" ++ pad2 mi)%string.

(** The last character of a string, and strings that end in a digit. *)
Fixpoint last_char (s : string) : option ascii :=
  match s with
  | EmptyString => None
  | String c EmptyString => Some c
  | String _ r => last_char r
  end.

Definition ends_digit (s : string) : Prop :=
  exists c, last_char s = Some c /\ Py.isdigit c = true.

(** An alternative that, when it matches, hands back a tail of its
    input. *)
Definition eats (a : Py.alternative) : Prop :=
  forall s v r, a s = Some (v, r) -> exists x, s = (x ++ r)%string.

(** *** The patient selector of the booking form

    [<option value="{{ p_id }}">]: the value is [str(p_id)], the decimal
    digits without leading zeros, after a minus sign when negative.  The
    digits are produced last first, at most [fuel] of them. *)
Fixpoint digits_of (fuel : nat) (n : Z) (tail : string) : string :=
  match fuel with
  | O => tail
  | S fuel' =>
      let tail' := String (digit_char (n mod 10)) tail in
      if n <? 10 then tail' else digits_of fuel' (n / 10) tail'
  end.

Definition str_of_int (n : Z) : string :=
  if n <? 0
  then String "-" (digits_of (S (Z.to_nat (Z.log2 (- n)))) (- n) "")
  else digits_of (S (Z.to_nat (Z.log2 n))) n "".

Fixpoint all_digits (s : string) : bool :=
  match s with
  | EmptyString => true
  | String c r => Py.isdigit c && all_digits r
  end.

(** ** Facts about the library models *)

Section StripFacts.
Variable sp : ascii -> bool.

Lemma lstrip_by_head c r s :
  Py.lstrip_by sp s = String c r -> sp c = false.
Proof.
  induction s as [|d s IH]; simpl; [discriminate|].
  destruct (sp d) eqn:E; [exact IH|].
  intros H; injection H as -> _; exact E.
Qed.

Lemma rstrip_by_head c s :
  sp c = false -> exists r, Py.rstrip_by sp (String c s) = String c r.
Proof.
  intros E; simpl. destruct (Py.rstrip_by sp s); [rewrite E|]; eauto.
Qed.

Lemma rstrip_by_idem s :
  Py.rstrip_by sp (Py.rstrip_by sp s) = Py.rstrip_by sp s.
Proof.
  induction s as [|c s IH]; simpl; [reflexivity|].
  destruct (Py.rstrip_by sp s) as [|d r] eqn:E.
  - destruct (sp c) eqn:Ec; simpl; [reflexivity|now rewrite Ec].
  - change (Py.rstrip_by sp (String c (String d r))) with
      (match Py.rstrip_by sp (String d r) with
       | EmptyString => if sp c then EmptyString else String c EmptyString
       | x => String c x
       end).
    now rewrite IH.
Qed.

Lemma strip_by_idem s :
  Py.strip_by sp (Py.strip_by sp s) = Py.strip_by sp s.
Proof.
  unfold Py.strip_by.
  destruct (Py.lstrip_by sp s) as [|c r] eqn:E; [reflexivity|].
  pose proof (lstrip_by_head _ _ _ E) as Hc.
  destruct (rstrip_by_head c r Hc) as [r' Hr].
  rewrite Hr. replace (Py.lstrip_by sp (String c r')) with (String c r')
    by (simpl; now rewrite Hc).
  rewrite <- Hr. apply rstrip_by_idem.
Qed.
End StripFacts.

Lemma strip_idem s : Py.strip (Py.strip s) = Py.strip s.
Proof. apply strip_by_idem. Qed.

Lemma normalize_strip s : normalize (Py.strip s) = normalize s.
Proof. unfold normalize. now rewrite strip_idem. Qed.

Lemma truthy_false s : Py.truthy s = false <-> s = "".
Proof. destruct s; simpl; split; congruence. Qed.

Lemma truthy_true s : Py.truthy s = true <-> s <> "".
Proof. destruct s; simpl; split; congruence. Qed.

(** The order of datetimes. *)

Lemma lex_ltb_asym a : forall b,
  Py.lex_ltb a b = true -> Py.lex_ltb b a = false.
Proof.
  induction a as [|x a IH]; intros [|y b]; simpl; try congruence.
  destruct (Z.ltb_spec x y), (Z.ltb_spec y x), (Z.eqb_spec x y),
    (Z.eqb_spec y x); simpl; try lia; auto; congruence.
Qed.

Lemma lex_ltb_negtrans a : forall b c,
  Py.lex_ltb b a = false -> Py.lex_ltb c b = false -> Py.lex_ltb c a = false.
Proof.
  induction a as [|x a IH]; intros [|y b] [|z c]; simpl; try congruence.
  destruct (Z.ltb_spec y x), (Z.ltb_spec z y), (Z.ltb_spec z x),
    (Z.eqb_spec y x), (Z.eqb_spec z y), (Z.eqb_spec z x);
    simpl; try lia; try congruence; eauto.
Qed.

Lemma lex_ltb_same a : forall b,
  Py.lex_ltb a b = false -> Py.lex_ltb b a = false -> a = b.
Proof.
  induction a as [|x a IH]; intros [|y b]; simpl; try congruence.
  destruct (Z.ltb_spec x y), (Z.ltb_spec y x), (Z.eqb_spec x y),
    (Z.eqb_spec y x); simpl; try lia; try congruence.
  intros H1 H2. subst. f_equal. now apply IH.
Qed.

Lemma dt_ltb_asym a b : Py.dt_ltb a b = true -> Py.dt_ltb b a = false.
Proof. apply lex_ltb_asym. Qed.

Lemma dt_ltb_negtrans a b c :
  Py.dt_ltb b a = false -> Py.dt_ltb c b = false -> Py.dt_ltb c a = false.
Proof. apply lex_ltb_negtrans. Qed.

Lemma dt_same_eq a b : Py.dt_same a b = true <-> a = b.
Proof.
  unfold Py.dt_same, Py.dt_ltb. split.
  - rewrite andb_true_iff, !negb_true_iff. intros [H1 H2].
    pose proof (lex_ltb_same _ _ H1 H2) as E.
    destruct a, b; simpl in E. now inversion E.
  - intros ->. assert (Py.lex_ltb (Py.fields b) (Py.fields b) = false) as ->.
    { destruct (Py.lex_ltb (Py.fields b) (Py.fields b)) eqn:E; auto.
      now apply lex_ltb_asym in E as E'; rewrite E in E'. }
    reflexivity.
Qed.

(** [sorted]: a stable sort of the decorated list. *)
Section SortFacts.
Context {A K : Type}.
Variable ltb : K -> K -> bool.
Variable key : A -> option K.
Hypothesis ltb_asym : forall a b, ltb a b = true -> ltb b a = false.
Hypothesis ltb_negtrans :
  forall a b c, ltb b a = false -> ltb c b = false -> ltb c a = false.

Lemma decorate_total l :
  Forall (fun x => key x <> None) l ->
  exists d, Py.decorate key l = Some d /\ map snd d = l /\ Forall (coherent key) d.
Proof.
  induction 1 as [|x l Hx _ [d [Hd [Hm Hc]]]]; simpl.
  - exists []; auto.
  - destruct (key x) as [k|] eqn:E; [|congruence]. rewrite Hd.
    exists ((k, x) :: d). repeat split; simpl; [now rewrite Hm|].
    constructor; auto.
Qed.

Lemma decorate_Some l d :
  Py.decorate key l = Some d -> map snd d = l /\ Forall (coherent key) d.
Proof.
  revert d. induction l as [|x l IH]; simpl; intros d.
  - intros [= <-]. auto.
  - destruct (key x) as [k|] eqn:E; [|discriminate].
    destruct (Py.decorate key l) as [r|]; [|discriminate].
    intros [= <-]. destruct (IH r eq_refl) as [Hm Hc].
    simpl. split; [now rewrite Hm|]. constructor; auto.
Qed.


Lemma insert_perm (x : K * A) l : Permutation (Py.insert ltb x l) (x :: l).
Proof.
  induction l as [|y l IH]; simpl; [reflexivity|].
  destruct (ltb (fst y) (fst x)); [|reflexivity].
  rewrite IH. apply perm_swap.
Qed.

Lemma sort_perm (l : list (K * A)) : Permutation (Py.sort ltb l) l.
Proof.
  induction l as [|x l IH]; simpl; [reflexivity|].
  rewrite insert_perm. now constructor.
Qed.

Lemma insert_sorted (x : K * A) l :
  Sorted (dec_le ltb) l -> Sorted (dec_le ltb) (Py.insert ltb x l).
Proof.
  induction 1 as [|y l Hs IH Hh]; simpl; [repeat constructor|].
  destruct (ltb (fst y) (fst x)) eqn:E.
  - constructor; [exact IH|].
    destruct Hh as [|z l Hyz]; simpl.
    + constructor. now apply ltb_asym.
    + destruct (ltb (fst z) (fst x)); constructor;
        [exact Hyz|now apply ltb_asym].
  - constructor; [now constructor|]. constructor. exact E.
Qed.

Lemma sort_sorted (l : list (K * A)) :
  StronglySorted (dec_le ltb) (Py.sort ltb l).
Proof.
  apply Sorted_StronglySorted.
  - intros x y z Hxy Hyz. unfold dec_le in *. eapply ltb_negtrans; eauto.
  - induction l; simpl; [constructor|now apply insert_sorted].
Qed.

(** Stability: a class of keys closed downwards against [ltb] keeps the
    order its elements had. *)
Section Stable.
Variable P : K -> bool.
Hypothesis P_apart : forall a b, P a = true -> ltb b a = true -> P b = false.

Lemma insert_filter x l :
  filter (fun p : K * A => P (fst p)) (Py.insert ltb x l)
  = filter (fun p : K * A => P (fst p)) (x :: l).
Proof.
  induction l as [|y l IH]; [reflexivity|].
  simpl Py.insert. destruct (ltb (fst y) (fst x)) eqn:E; [|reflexivity].
  simpl in *. rewrite IH.
  destruct (P (fst x)) eqn:Px; [|reflexivity].
  now rewrite (P_apart _ _ Px E).
Qed.

Lemma sort_filter l :
  filter (fun p : K * A => P (fst p)) (Py.sort ltb l)
  = filter (fun p : K * A => P (fst p)) l.
Proof.
  induction l as [|x l IH]; [reflexivity|].
  simpl Py.sort. rewrite insert_filter. simpl. now rewrite IH.
Qed.

Lemma undecorate_filter d :
  Forall (coherent key) d ->
  map snd (filter (fun p : K * A => P (fst p)) d)
  = filter (fun x => match key x with Some k => P k | None => false end)
           (map snd d).
Proof.
  induction 1 as [|p d Hp _ IH]; [reflexivity|].
  simpl. rewrite Hp.
  destruct (P (fst p)); simpl; now rewrite IH.
Qed.
End Stable.

(** A sorted, stable rearrangement is unique: whatever stable algorithm
    [sorted] runs, it returns the list [Py.sort] returns. *)
Lemma ltb_irrefl a : ltb a a = false.
Proof.
  destruct (ltb a a) eqn:E; [|reflexivity].
  pose proof (ltb_asym _ _ E). congruence.
Qed.

Lemma tied_apart k a b :
  tied ltb a k = true -> ltb b a = true -> tied ltb b k = false.
Proof.
  unfold tied. rewrite andb_true_iff, !negb_true_iff. intros [_ Hka] Hba.
  destruct (ltb b k) eqn:Hbk; [reflexivity|].
  pose proof (ltb_negtrans _ _ _ Hka Hbk). congruence.
Qed.

Lemma stable_sorted_unique (l1 : list (K * A)) : forall l2,
  StronglySorted (dec_le ltb) l1 -> StronglySorted (dec_le ltb) l2 ->
  Permutation l1 l2 ->
  (forall k, filter (fun p => tied ltb (fst p) k) l1
             = filter (fun p => tied ltb (fst p) k) l2) ->
  l1 = l2.
Proof.
  induction l1 as [|x l1 IH]; intros l2 S1 S2 Hp Hf.
  - apply Permutation_nil in Hp. now subst.
  - destruct l2 as [|y l2];
      [apply Permutation_sym, Permutation_nil in Hp; discriminate|].
    inversion S1 as [|? ? S1' F1]; inversion S2 as [|? ? S2' F2]; subst.
    rewrite Forall_forall in F1, F2.
    assert (ltb (fst y) (fst x) = false) as Hyx.
    { assert (In y (x :: l1)) as [->|Hy]
        by (apply (Permutation_in _ (Permutation_sym Hp)); now left).
      - apply ltb_irrefl.
      - exact (F1 _ Hy). }
    assert (ltb (fst x) (fst y) = false) as Hxy.
    { assert (In x (y :: l2)) as [->|Hx]
        by (apply (Permutation_in _ Hp); now left).
      - apply ltb_irrefl.
      - exact (F2 _ Hx). }
    assert (x = y) as <-.
    { assert (tied ltb (fst x) (fst x) = true) as Txx
        by (unfold tied; now rewrite ltb_irrefl).
      assert (tied ltb (fst y) (fst x) = true) as Tyx
        by (unfold tied; now rewrite Hyx, Hxy).
      specialize (Hf (fst x)). simpl in Hf. rewrite Txx, Tyx in Hf.
      congruence. }
    f_equal. apply IH; auto.
    + now apply Permutation_cons_inv in Hp.
    + intros k. specialize (Hf k). simpl in Hf.
      destruct (tied ltb (fst x) k); congruence.
Qed.

Lemma sort_unique (l l' : list (K * A)) :
  StronglySorted (dec_le ltb) l' ->
  Permutation l' l ->
  (forall k, filter (fun p => tied ltb (fst p) k) l'
             = filter (fun p => tied ltb (fst p) k) l) ->
  l' = Py.sort ltb l.
Proof.
  intros Hs Hp Hf. apply stable_sorted_unique; auto.
  - apply sort_sorted.
  - rewrite Hp. symmetry. apply sort_perm.
  - intros k. rewrite Hf. symmetry.
    apply (sort_filter (fun a => tied ltb a k)). apply tied_apart.
Qed.

Lemma undecorate_sorted d :
  Forall (coherent key) d -> StronglySorted (dec_le ltb) d ->
  StronglySorted
    (fun x y => match key x, key y with
                | Some kx, Some ky => ltb ky kx = false
                | _, _ => False
                end)
    (map snd d).
Proof.
  intros Hc Hs. induction Hs as [|p d Hs IH Hall]; simpl; constructor.
  - apply IH. now inversion Hc.
  - inversion Hc as [|? ? Hp Hd]; subst.
    rewrite Forall_map, Forall_forall. intros q Hq.
    rewrite Forall_forall in Hall, Hd.
    rewrite Hp, (Hd q Hq). now apply Hall.
Qed.
End SortFacts.

(** Insertion-ordered dictionaries. *)
Section DictFacts.
Context {V : Type}.
Implicit Types (d : Py.dict V) (k j : Z) (v : V).

Lemma contains_In k d : Py.contains k d = true <-> In k (Py.keys d).
Proof.
  unfold Py.contains, Py.keys. rewrite existsb_exists, in_map_iff.
  split; intros [kv [H1 H2]]; exists kv.
  - apply Z.eqb_eq in H2. auto.
  - split; [exact H2|now apply Z.eqb_eq].
Qed.

Lemma contains_false k d : Py.contains k d = false <-> ~ In k (Py.keys d).
Proof.
  rewrite <- contains_In. destruct (Py.contains k d); split; congruence.
Qed.

Lemma set_fresh k v d : Py.contains k d = false -> Py.set k v d = d ++ [(k, v)].
Proof.
  induction d as [|[k' v'] d IH]; simpl; [reflexivity|].
  rewrite orb_false_iff. intros [-> H]. now rewrite IH.
Qed.

Lemma get_set_same k v d : Py.get k (Py.set k v d) = Some v.
Proof.
  induction d as [|[k' v'] d IH]; simpl.
  - now rewrite Z.eqb_refl.
  - destruct (k' =? k) eqn:E; simpl; [now rewrite Z.eqb_refl|now rewrite E].
Qed.

Lemma get_set_other k j v d : j <> k -> Py.get j (Py.set k v d) = Py.get j d.
Proof.
  intros Hjk. induction d as [|[k' v'] d IH]; simpl.
  - destruct (k =? j) eqn:E; [apply Z.eqb_eq in E; congruence|reflexivity].
  - destruct (k' =? k) eqn:E; simpl.
    + apply Z.eqb_eq in E. subst k'.
      destruct (k =? j) eqn:E'; [apply Z.eqb_eq in E'; congruence|reflexivity].
    + now rewrite IH.
Qed.

Lemma get_contains k v d : Py.get k d = Some v -> Py.contains k d = true.
Proof.
  induction d as [|[k' v'] d IH]; simpl; [discriminate|].
  destruct (k' =? k); simpl; auto.
Qed.

Lemma get_without_same k d : Py.get k (Py.without k d) = None.
Proof.
  induction d as [|[k' v'] d IH]; simpl; [reflexivity|].
  destruct (k' =? k) eqn:E; simpl; [exact IH|now rewrite E].
Qed.

Lemma get_without_other k j d :
  j <> k -> Py.get j (Py.without k d) = Py.get j d.
Proof.
  intros Hjk. induction d as [|[k' v'] d IH]; simpl; [reflexivity|].
  destruct (k' =? k) eqn:E; simpl.
  - apply Z.eqb_eq in E. subst k'.
    destruct (k =? j) eqn:E'; [apply Z.eqb_eq in E'; congruence|exact IH].
  - now rewrite IH.
Qed.

Lemma In_without k d kv : In kv (Py.without k d) <-> In kv d /\ fst kv <> k.
Proof.
  unfold Py.without. rewrite filter_In, negb_true_iff, Z.eqb_neq. tauto.
Qed.

Lemma keys_filter_NoDup (p : Z * V -> bool) d :
  NoDup (Py.keys d) -> NoDup (Py.keys (filter p d)).
Proof.
  unfold Py.keys. induction d as [|kv d IH]; simpl; [auto|].
  intros H. inversion H as [|? ? Hn Hd]; subst.
  destruct (p kv); simpl; [|auto].
  constructor; [|auto]. rewrite in_map_iff in *.
  intros [x [Hx Hin]]. apply Hn. exists x. split; [auto|].
  now apply filter_In in Hin.
Qed.

Lemma get_In k v d : NoDup (Py.keys d) -> In (k, v) d -> Py.get k d = Some v.
Proof.
  induction d as [|[k' v'] d IH]; simpl; [tauto|].
  intros H [E|Hin]; inversion H as [|? ? Hn Hd]; subst.
  - inversion E; subst. now rewrite Z.eqb_refl.
  - destruct (k' =? k) eqn:E; [|auto].
    apply Z.eqb_eq in E. subst k'. exfalso. apply Hn.
    change k with (fst (k, v)). now apply in_map.
Qed.

Lemma In_get k v d : Py.get k d = Some v -> In (k, v) d.
Proof.
  induction d as [|[k' v'] d IH]; simpl; [discriminate|].
  destruct (k' =? k) eqn:E; [|auto].
  apply Z.eqb_eq in E. intros [= ->]. left. congruence.
Qed.
End DictFacts.

(** ** Facts about the handlers *)

Lemma handle_never_raises st rq : snd (handle st rq) <> Raised.
Proof.
  destruct rq; simpl.
  - unfold create_patient. destruct (negb _); [discriminate|].
    destruct (documento_taken _ _); discriminate.
  - unfold create_appointment.
    destruct (negb (Py.contains _ _)); [discriminate|].
    destruct (parse_datetime _ _); [|discriminate].
    destruct (negb (Py.truthy _)); [discriminate|].
    destruct (has_conflict _ _ _ _ _); discriminate.
  - unfold cancel_appointment, Py.del.
    destruct (Py.contains _ _); discriminate.
Qed.

Lemma has_conflict_true aps m f h :
  has_conflict aps m f h None = true <->
  exists i a, In (i, a) aps /\ normalize (medico a) = normalize m
              /\ fecha a = f /\ hora a = h.
Proof.
  unfold normalize. induction aps as [|[i a] aps IH]; simpl.
  - split; [discriminate|]. intros [? [? [[] _]]].
  - destruct (_ && _ && _) eqn:E.
    + split; [intros _|reflexivity].
      rewrite !andb_true_iff, !String.eqb_eq in E.
      exists i, a. intuition.
    + rewrite IH. split.
      * intros [j [b [Hin H]]]. exists j, b. auto.
      * intros [j [b [[Heq|Hin] [H1 [H2 H3]]]]]; [|exists j, b; auto].
        inversion Heq; subst j b. subst f h. rewrite H1 in E.
        now rewrite !String.eqb_refl in E.
Qed.

Lemma has_conflict_false aps m f h :
  has_conflict aps m f h None = false ->
  forall i a, In (i, a) aps ->
    ~ (normalize (medico a) = normalize m /\ fecha a = f /\ hora a = h).
Proof.
  intros H i a Hin Hc.
  assert (has_conflict aps m f h None = true) as E
    by (apply has_conflict_true; eauto).
  congruence.
Qed.

Lemma documento_taken_true ps doc :
  documento_taken ps doc = true <->
  exists p, In p ps /\ normalize (documento p) = Py.lower doc.
Proof.
  unfold normalize. induction ps as [|p ps IH]; simpl.
  - split; [discriminate|]. intros [? [[] _]].
  - destruct (String.eqb _ _) eqn:E.
    + apply String.eqb_eq in E. split; eauto.
    + apply String.eqb_neq in E. rewrite IH. split.
      * intros [q [Hq H]]. eauto.
      * intros [q [[->|Hq] H]]; [congruence|eauto].
Qed.

Lemma cancel_appointment_eq st i :
  cancel_appointment st i
  = if Py.contains i (appointments st)
    then (mkStore (patients st) (Py.without i (appointments st))
                  (pid_counter st) (aid_counter st),
          AppointmentCancelled i)
    else (st, Failed NotFoundError).
Proof.
  unfold cancel_appointment, Py.del.
  destruct (Py.contains i (appointments st)); reflexivity.
Qed.

Lemma clash_true a b :
  clash a b = true <->
  normalize (medico a) = normalize (medico b)
  /\ fecha a = fecha b /\ hora a = hora b.
Proof.
  unfold clash. rewrite !andb_true_iff, !String.eqb_eq. tauto.
Qed.

Lemma clash_sym a b : clash a b = clash b a.
Proof.
  unfold clash.
  now rewrite (String.eqb_sym (normalize (medico a))),
    (String.eqb_sym (fecha a)), (String.eqb_sym (hora a)).
Qed.

(** The listing, on a store whose dates and times all parse. *)
Lemma upcoming_sorted_spec aps :
  Forall parses aps ->
  exists l,
    upcoming_sorted aps = Some l
    /\ Permutation l aps
    /\ StronglySorted key_le l
    /\ forall d, filter (key_same d) l = filter (key_same d) aps.
Proof.
  intros Hp. unfold upcoming_sorted, Py.sorted, Py.items.
  destruct (decorate_total keyfun aps Hp) as [dd [Hd [Hm Hc]]].
  rewrite Hd. simpl. exists (map snd (Py.sort Py.dt_ltb dd)).
  assert (Forall (coherent keyfun) (Py.sort Py.dt_ltb dd)) as Hc'.
  { eapply Permutation_Forall; [symmetry; apply sort_perm|exact Hc]. }
  split; [reflexivity|]. split; [|split].
  - rewrite <- Hm. apply Permutation_map, sort_perm.
  - apply (undecorate_sorted Py.dt_ltb keyfun _ Hc').
    apply sort_sorted; [exact dt_ltb_asym|exact dt_ltb_negtrans].
  - intros d. unfold key_same.
    rewrite <- (undecorate_filter keyfun (fun k => Py.dt_same k d) _ Hc').
    rewrite (sort_filter Py.dt_ltb (fun k => Py.dt_same k d)).
    + rewrite (undecorate_filter keyfun (fun k => Py.dt_same k d) _ Hc).
      now rewrite Hm.
    + exact (tied_apart Py.dt_ltb dt_ltb_negtrans d).
Qed.


Lemma NoDup_snoc (l : list Z) x : NoDup l -> ~ In x l -> NoDup (l ++ [x]).
Proof.
  intros Hl Hx. apply (Permutation_NoDup (l := x :: l)).
  - apply Permutation_cons_append.
  - now constructor.
Qed.

Lemma bound_fresh {V} (d : Py.dict V) c :
  Forall (fun k => 1 <= k < c) (Py.keys d) -> Py.contains c d = false.
Proof.
  intros H. apply contains_false. intros Hin.
  rewrite Forall_forall in H. specialize (H _ Hin). lia.
Qed.

Lemma bound_snoc (l : list Z) c :
  Forall (fun k => 1 <= k < c) l -> 1 <= c ->
  Forall (fun k => 1 <= k < c + 1) (l ++ [c]).
Proof.
  intros H Hc. apply Forall_app. split.
  - eapply Forall_impl; [|exact H]. simpl. intros; lia.
  - repeat constructor; lia.
Qed.

(** *** The handlers keep the stores well formed *)

Lemma init_wf : wf init.
Proof.
  constructor; simpl; try lia; try constructor.
  intros i a j b [].
Qed.

Lemma create_patient_wf st n d t c :
  wf st -> wf (fst (create_patient st n d t c)).
Proof.
  intros W. unfold create_patient.
  destruct (negb _); [exact W|].
  destruct (documento_taken _ _); [exact W|].
  destruct W. simpl.
  pose proof (bound_fresh _ _ wf_pids0) as F.
  constructor; simpl; auto; try lia; rewrite (set_fresh _ _ _ F);
    unfold Py.keys; rewrite map_app; simpl.
  - now apply bound_snoc.
  - apply NoDup_snoc; [auto|]. now apply contains_false.
Qed.

Lemma no_clash_snoc aps i a :
  no_clash aps ->
  has_conflict aps (medico a) (fecha a) (hora a) None = false ->
  no_clash (aps ++ [(i, a)]).
Proof.
  intros Hn Hc j b k c Hj Hk Hjk.
  pose proof (has_conflict_false _ _ _ _ Hc) as Hf.
  apply in_app_iff in Hj, Hk. simpl in Hj, Hk.
  destruct (clash b c) eqn:E; [exfalso|reflexivity].
  destruct Hj as [Hj|[Hj|[]]], Hk as [Hk|[Hk|[]]].
  - rewrite (Hn _ _ _ _ Hj Hk Hjk) in E. discriminate.
  - inversion Hk; subst. apply clash_true in E. exact (Hf _ _ Hj E).
  - inversion Hj; subst. rewrite clash_sym in E. apply clash_true in E.
    exact (Hf _ _ Hk E).
  - inversion Hj; inversion Hk; subst. congruence.
Qed.

Lemma create_appointment_wf st p f h m :
  wf st -> wf (fst (create_appointment st p f h m)).
Proof.
  intros W. unfold create_appointment.
  destruct (negb (Py.contains _ _)); [exact W|].
  destruct (parse_datetime _ _) eqn:P; [|exact W].
  destruct (negb (Py.truthy _)); [exact W|].
  destruct (has_conflict _ _ _ _ _) eqn:C; [exact W|].
  destruct W. simpl.
  pose proof (bound_fresh _ _ wf_aids0) as F.
  constructor; simpl; auto; try lia; rewrite (set_fresh _ _ _ F).
  - unfold Py.keys. rewrite map_app. now apply bound_snoc.
  - unfold Py.keys. rewrite map_app. apply NoDup_snoc; [auto|].
    now apply contains_false.
  - apply Forall_app. split; [auto|]. repeat constructor.
    unfold parses. simpl. rewrite P. discriminate.
  - apply Forall_app. split; [auto|]. repeat constructor.
  - now apply no_clash_snoc.
Qed.

Lemma Forall_keys_without {V} (Q : Z -> Prop) k (d : Py.dict V) :
  Forall Q (Py.keys d) -> Forall Q (Py.keys (Py.without k d)).
Proof.
  unfold Py.keys. rewrite !Forall_forall. intros H x Hx.
  apply in_map_iff in Hx as [kv [<- Hkv]]. apply In_without in Hkv as [Hkv _].
  apply H. now apply in_map.
Qed.

Lemma Forall_without {V} (Q : Z * V -> Prop) k (d : Py.dict V) :
  Forall Q d -> Forall Q (Py.without k d).
Proof.
  rewrite !Forall_forall. intros H x Hx. apply In_without in Hx as [Hx _]. auto.
Qed.

Lemma cancel_appointment_wf st i :
  wf st -> wf (fst (cancel_appointment st i)).
Proof.
  intros W. rewrite cancel_appointment_eq.
  destruct (Py.contains _ _); [|exact W]. destruct W. simpl.
  constructor; simpl; auto.
  - now apply Forall_keys_without.
  - now apply keys_filter_NoDup.
  - now apply Forall_without.
  - now apply Forall_without.
  - intros j a k b Hj Hk. apply In_without in Hj as [Hj _], Hk as [Hk _]. eauto.
Qed.

Lemma handle_wf st rq : wf st -> wf (fst (handle st rq)).
Proof.
  destruct rq; simpl;
    auto using create_patient_wf, create_appointment_wf, cancel_appointment_wf.
Qed.

Lemma run_wf rqs : forall st, wf st -> wf (fst (run st rqs)).
Proof.
  induction rqs as [|rq rqs IH]; intros st W; simpl; [exact W|].
  pose proof (handle_wf st rq W) as W1.
  destruct (handle st rq) as [st1 r]. simpl in W1.
  specialize (IH st1 W1). destruct (run st1 rqs) as [st2 rs]. exact IH.
Qed.

Lemma seed_demo_wf : wf (seed_demo init).
Proof.
  constructor; simpl; try lia; repeat constructor; simpl; try lia.
  intros i a j b [].
Qed.

Lemma reachable_wf st : reachable st -> wf st.
Proof.
  intros [s0 [rqs [[->| ->] <-]]]; apply run_wf;
    [apply init_wf|apply seed_demo_wf].
Qed.

Lemma reachable_from_init rqs : reachable (fst (run init rqs)).
Proof. exists init, rqs. auto. Qed.

(** A failed request leaves all four globals as they were. *)
Lemma failed_unchanged st rq e :
  snd (handle st rq) = Failed e -> fst (handle st rq) = st.
Proof.
  destruct rq; simpl.
  - unfold create_patient. destruct (negb _); [reflexivity|].
    destruct (documento_taken _ _); [reflexivity|discriminate].
  - unfold create_appointment.
    destruct (negb (Py.contains _ _)); [reflexivity|].
    destruct (parse_datetime _ _); [|reflexivity].
    destruct (negb (Py.truthy _)); [reflexivity|].
    destruct (has_conflict _ _ _ _ _); [reflexivity|discriminate].
  - rewrite cancel_appointment_eq.
    destruct (Py.contains _ _); [discriminate|reflexivity].
Qed.

(** *** The example, evaluated *)

Example demo_results :
  snd (run init demo)
  = [ PatientCreated 1; AppointmentCreated 1; Failed ConflictError;
      AppointmentCreated 2; AppointmentCreated 3; Failed NotFoundError ].
Proof. vm_compute. reflexivity. Qed.

Example demo_appointments :
  appointments demo_store
  = [ (1, cita "Dr. Lopez" "10:00"); (2, cita "Dr. Perez" "09:00");
      (3, cita "Dra. Ramirez" "9:00") ].
Proof. vm_compute. reflexivity. Qed.

Example demo_listing :
  home demo_store None
  = Some [ (2, cita "Dr. Perez" "09:00"); (3, cita "Dra. Ramirez" "9:00");
           (1, cita "Dr. Lopez" "10:00") ].
Proof. vm_compute. reflexivity. Qed.

Example demo_listing_lopez :
  home demo_store (Some " dr. lopez ") = Some [ (1, cita "Dr. Lopez" "10:00") ].
Proof. vm_compute. reflexivity. Qed.

Example strptime_samples :
  map Py.strptime
      [ "2025-03-10 09:00"; "2025-3-1 9:5"; "2024-02-29 10:00";
        "2025-02-29 10:00"; "0000-01-01 00:00"; "2025-01-01 24:00";
        "2025-01-01 10:60"; "2025-01-01 10:00 " ]
  = [ Some (Py.mkDatetime 2025 3 10 9 0); Some (Py.mkDatetime 2025 3 1 9 5);
      Some (Py.mkDatetime 2024 2 29 10 0); None; None; None; None; None ].
Proof. vm_compute. reflexivity. Qed.

Example int_samples :
  map Py.int [ "1"; " 7 "; "+5"; "-3"; "1_0"; "007"; ""; "abc"; "1.5"; "1__0" ]
  = [ Some 1; Some 7; Some 5; Some (-3); Some 10; Some 7; None; None; None;
      None ].
Proof. vm_compute. reflexivity. Qed.

Lemma demo_reachable : reachable demo_store.
Proof. apply reachable_from_init. Qed.

Example seeded_registration :
  snd (run (seed_demo init) [ juan ])
  = [ Failed DuplicateDocumentError ].
Proof. vm_compute. reflexivity. Qed.

(** *** The sort key and the order of the sort, against the records *)

Lemma keyfun_instant item : keyfun item = instant (snd item).
Proof. now destruct item. Qed.

Lemma parses_dated item : parses item <-> dated item.
Proof. unfold parses, dated. now rewrite keyfun_instant. Qed.

Lemma dt_ltb_earlier a b : Py.dt_ltb a b = true <-> earlier a b.
Proof.
  destruct a as [ya ma da ha ia], b as [yb mb db hb ib].
  unfold Py.dt_ltb, Py.fields, earlier. cbn [Py.lex_ltb Py.year Py.month
    Py.day Py.hour Py.minute].
  repeat (rewrite orb_true_iff || rewrite andb_true_iff).
  rewrite !Z.ltb_lt, !Z.eqb_eq.
  intuition (try discriminate).
Qed.

Lemma same_fields_eq a b : same_fields a b = true <-> a = b.
Proof.
  destruct a as [ya ma da ha ia], b as [yb mb db hb ib].
  unfold same_fields. cbn [Py.year Py.month Py.day Py.hour Py.minute].
  rewrite !andb_true_iff, !Z.eqb_eq. split.
  - intros [[[[-> ->] ->] ->] ->]. reflexivity.
  - intros [= -> -> -> -> ->]. auto.
Qed.

Lemma dt_same_fields a b : Py.dt_same a b = same_fields a b.
Proof.
  destruct (same_fields a b) eqn:E.
  - apply dt_same_eq. now apply same_fields_eq.
  - destruct (Py.dt_same a b) eqn:D; [|reflexivity].
    apply dt_same_eq, same_fields_eq in D. congruence.
Qed.

Lemma key_same_at_instant d item : key_same d item = at_instant d item.
Proof.
  unfold key_same, at_instant. rewrite keyfun_instant.
  destruct (instant (snd item)); [apply dt_same_fields|reflexivity].
Qed.

Lemma key_le_not_after x y : key_le x y -> not_after x y.
Proof.
  unfold key_le, not_after. rewrite !keyfun_instant.
  destruct (instant (snd x)) as [kx|]; [|contradiction].
  destruct (instant (snd y)) as [ky|]; [|contradiction].
  intros H. exists kx, ky. split; [reflexivity|]. split; [reflexivity|].
  destruct (Py.dt_ltb kx ky) eqn:L.
  - left. now apply dt_ltb_earlier.
  - right. apply dt_same_eq. unfold Py.dt_same. now rewrite L, H.
Qed.

Lemma StronglySorted_mono {A} (R R' : A -> A -> Prop) l :
  (forall x y, R x y -> R' x y) -> StronglySorted R l -> StronglySorted R' l.
Proof.
  intros H. induction 1 as [|x l Hs IH Hall]; constructor; [exact IH|].
  eapply Forall_impl; [|exact Hall]. auto.
Qed.

(** The listing, against the instants the records name. *)
Lemma listing_spec aps :
  Forall dated aps ->
  exists l,
    upcoming_sorted aps = Some l
    /\ Permutation l aps
    /\ StronglySorted not_after l
    /\ forall d, filter (at_instant d) l = filter (at_instant d) aps.
Proof.
  intros H.
  assert (Forall parses aps) as Hp
    by (eapply Forall_impl; [|exact H]; intros item; apply parses_dated).
  destruct (upcoming_sorted_spec _ Hp) as [l [E [Hperm [Hs Hf]]]].
  exists l. split; [exact E|]. split; [exact Hperm|]. split.
  - exact (StronglySorted_mono _ _ _ key_le_not_after Hs).
  - intros d.
    rewrite <- (filter_ext _ _ (key_same_at_instant d) l),
            <- (filter_ext _ _ (key_same_at_instant d) aps).
    apply Hf.
Qed.

(** ** Properties of the registry and the scheduler *)

(** C1. In every state reached from the empty stores by registrations,
    bookings and cancellations, an identifier names one record, and two
    records under different identifiers never agree on the doctor
    (trimmed, lowercased), the date string and the time string. *)
Theorem no_double_booking st :
  reachable st ->
  forall i a j b,
    In (i, a) (appointments st) -> In (j, b) (appointments st) ->
    (i = j -> a = b)
    /\ (i <> j ->
        ~ (normalize (medico a) = normalize (medico b)
           /\ fecha a = fecha b /\ hora a = hora b)).
Proof.
  intros R i a j b Ha Hb. destruct (reachable_wf st R). split.
  - intros <-. apply (get_In _ _ _ wf_aunique0) in Ha, Hb. congruence.
  - intros Hij Hc. apply clash_true in Hc.
    rewrite (wf_free0 _ _ _ _ Ha Hb Hij) in Hc. discriminate.
Qed.

Lemma no_double_booking_witness :
  reachable demo_store
  /\ In (1, cita "Dr. Lopez" "10:00") (appointments demo_store)
  /\ In (2, cita "Dr. Perez" "09:00") (appointments demo_store)
  /\ ~ (normalize "Dr. Lopez" = normalize "Dr. Perez"
        /\ "2025-03-10" = "2025-03-10" /\ "10:00" = "09:00").
Proof.
  assert (reachable demo_store) as R by (exists init, demo; split; [left|]; reflexivity).
  assert (In (1, cita "Dr. Lopez" "10:00") (appointments demo_store)) as H1
    by (vm_compute; auto).
  assert (In (2, cita "Dr. Perez" "09:00") (appointments demo_store)) as H2
    by (vm_compute; auto).
  repeat split; auto.
  apply (no_double_booking demo_store R 1 _ 2 _ H1 H2). lia.
Defined.

(** C2. [create_appointment] checks, in this order: the patient is in
    the registry (else InvalidPatientError); the trimmed date and time
    parse (else InvalidDateTimeError); the trimmed doctor is not empty
    (else MissingDoctorError); no stored appointment has the same
    normalised doctor, date and time (else ConflictError).  Every failure
    returns the stores as they were. *)
Theorem book_validation_order st p f h m :
  let fecha0 := Py.strip (Py.form_get f "") in
  let hora0 := Py.strip (Py.form_get h "") in
  let doctor := Py.form_get m "" in
  let known := Py.contains (paciente_id_of p) (patients st) in
  let out := create_appointment st p f h m in
  (known = false -> out = (st, Failed InvalidPatientError))
  /\ (known = true -> parse_datetime fecha0 hora0 = None ->
      out = (st, Failed InvalidDateTimeError))
  /\ (known = true -> parse_datetime fecha0 hora0 <> None ->
      Py.strip doctor = "" ->
      out = (st, Failed MissingDoctorError))
  /\ (known = true -> parse_datetime fecha0 hora0 <> None ->
      Py.strip doctor <> "" ->
      (exists i a, In (i, a) (appointments st)
                   /\ normalize (medico a) = normalize doctor
                   /\ fecha a = fecha0 /\ hora a = hora0) ->
      out = (st, Failed ConflictError))
  /\ (forall e, snd out = Failed e -> fst out = st).
Proof.
  intros fecha0 hora0 doctor known out.
  subst out known. unfold create_appointment.
  fold fecha0 hora0 doctor.
  destruct (Py.contains _ _); simpl.
  2:{ repeat split; intros; congruence. }
  destruct (parse_datetime fecha0 hora0) eqn:P.
  2:{ repeat split; intros; congruence. }
  destruct (Py.truthy (Py.strip doctor)) eqn:T; simpl.
  2:{ apply truthy_false in T. repeat split; intros; congruence. }
  assert (Py.strip doctor <> "") as Hne
    by (intros E; rewrite E in T; discriminate).
  destruct (has_conflict _ _ _ _ _) eqn:C.
  - repeat split; intros; congruence.
  - repeat split; intros; simpl in *; try congruence.
    match goal with H : exists _, _ |- _ => destruct H as [i [a [Hin Hc]]] end.
    rewrite <- (normalize_strip doctor) in Hc.
    exfalso. exact (has_conflict_false _ _ _ _ C i a Hin Hc).
Qed.

Lemma book_validation_order_witness :
  create_appointment demo_store (Some "1") (Some " 2025-03-10") (Some "9:00")
                     (Some "DRA. RAMIREZ ")
  = (demo_store, Failed ConflictError).
Proof.
  apply (book_validation_order demo_store (Some "1") (Some " 2025-03-10")
           (Some "9:00") (Some "DRA. RAMIREZ ")).
  - vm_compute. reflexivity.
  - vm_compute. discriminate.
  - vm_compute. discriminate.
  - exists 3, (cita "Dra. Ramirez" "9:00"). vm_compute. auto.
Defined.

(** C3. On a store in which every record's date and time strings read as
    an instant, the listing exists, holds exactly the stored appointments,
    is in non-decreasing order of those instants (year, month, day, hour,
    minute of the record's own strings), and keeps the appointments at one
    instant in their insertion order. *)
Theorem listing_sorted_stable st :
  Forall dated (appointments st) ->
  exists l,
    home st None = Some l
    /\ upcoming_sorted (appointments st) = Some l
    /\ Permutation l (Py.items (appointments st))
    /\ StronglySorted not_after l
    /\ forall d, filter (at_instant d) l
                 = filter (at_instant d) (Py.items (appointments st)).
Proof.
  intros H. destruct (listing_spec _ H) as [l [E [Hp [Hs Hf]]]].
  exists l. unfold home. rewrite E. simpl. auto.
Qed.

(** On the example: Perez at 09:00 and Ramirez at 9:00, one instant, stay
    in their order of insertion, ahead of Lopez at 10:00. *)
Lemma listing_sorted_stable_witness :
  Forall dated (appointments demo_store)
  /\ home demo_store None
     = Some [ (2, cita "Dr. Perez" "09:00"); (3, cita "Dra. Ramirez" "9:00");
              (1, cita "Dr. Lopez" "10:00") ]
  /\ StronglySorted not_after
       [ (2, cita "Dr. Perez" "09:00"); (3, cita "Dra. Ramirez" "9:00");
         (1, cita "Dr. Lopez" "10:00") ]
  /\ filter (at_instant (Py.mkDatetime 2025 3 10 9 0))
            [ (2, cita "Dr. Perez" "09:00"); (3, cita "Dra. Ramirez" "9:00");
              (1, cita "Dr. Lopez" "10:00") ]
     = [ (2, cita "Dr. Perez" "09:00"); (3, cita "Dra. Ramirez" "9:00") ].
Proof.
  assert (Forall dated (appointments demo_store)) as H
    by (repeat constructor; vm_compute; discriminate).
  split; [exact H|].
  destruct (listing_sorted_stable demo_store H) as [l [E [_ [_ [Hs Hf]]]]].
  assert (l = [ (2, cita "Dr. Perez" "09:00");
                (3, cita "Dra. Ramirez" "9:00");
                (1, cita "Dr. Lopez" "10:00") ]) as El.
  { vm_compute in E. injection E as <-. reflexivity. }
  rewrite El in E, Hs, Hf. split; [exact E|]. split; [exact Hs|].
  rewrite (Hf (Py.mkDatetime 2025 3 10 9 0)). vm_compute. reflexivity.
Defined.

Lemma upcoming_sorted_perm aps l :
  upcoming_sorted aps = Some l -> Permutation l aps.
Proof.
  unfold upcoming_sorted, Py.sorted, Py.items.
  destruct (Py.decorate keyfun aps) as [dd|] eqn:E; [|discriminate].
  intros [= <-]. destruct (decorate_Some keyfun _ _ E) as [Hm _].
  rewrite <- Hm. apply Permutation_map, sort_perm.
Qed.

Lemma home_incl st arg l item :
  home st arg = Some l -> In item l -> In item (appointments st).
Proof.
  unfold home.
  destruct (upcoming_sorted (appointments st)) as [o|] eqn:E; [|discriminate].
  intros [= <-] Hin. apply upcoming_sorted_perm in E.
  apply (Permutation_in _ E).
  destruct (Py.truthy _); [now apply filter_In in Hin|exact Hin].
Qed.

(** C4. Cancelling a stored identifier answers with success, deletes the
    record under that identifier and nothing else (the other appointments
    keep their records and their order, the patients and both counters
    are untouched), and no later listing shows the identifier; cancelling
    an identifier that is not stored answers NotFoundError and changes
    nothing. *)
Theorem cancel_removes_exactly st i :
  let st' := fst (cancel_appointment st i) in
  (Py.contains i (appointments st) = true ->
     snd (cancel_appointment st i) = AppointmentCancelled i
     /\ patients st' = patients st
     /\ pid_counter st' = pid_counter st
     /\ aid_counter st' = aid_counter st
     /\ appointments st'
        = filter (fun item => negb (fst item =? i)) (appointments st)
     /\ Py.get i (appointments st') = None
     /\ (forall j, j <> i ->
           Py.get j (appointments st') = Py.get j (appointments st))
     /\ (forall arg l, home st' arg = Some l -> ~ In i (map fst l))
     /\ (Forall parses (appointments st) ->
         exists l, home st' None = Some l
                   /\ forall item, In item l <->
                                   In item (appointments st) /\ fst item <> i))
  /\ (Py.contains i (appointments st) = false ->
      cancel_appointment st i = (st, Failed NotFoundError)).
Proof.
  intros st'. subst st'. rewrite cancel_appointment_eq.
  destruct (Py.contains i (appointments st)); simpl; split;
    try discriminate; try reflexivity.
  intros _. repeat split.
  - apply get_without_same.
  - intros j Hj. now apply get_without_other.
  - intros arg l Hl Hin. apply in_map_iff in Hin as [item [Hi Hin]].
    apply (home_incl _ _ _ _ Hl) in Hin. simpl in Hin.
    apply In_without in Hin. tauto.
  - intros Hp.
    destruct (upcoming_sorted_spec (Py.without i (appointments st)))
      as [l [E [Hperm _]]]; [now apply Forall_without|].
    exists l. unfold home. simpl. rewrite E. simpl.
    split; [reflexivity|]. intros item. rewrite <- In_without. split.
    + apply Permutation_in. exact Hperm.
    + apply Permutation_in. symmetry. exact Hperm.
Qed.

Lemma cancel_removes_exactly_witness :
  home (fst (cancel_appointment demo_store 2)) None
  = Some [ (3, cita "Dra. Ramirez" "9:00"); (1, cita "Dr. Lopez" "10:00") ]
  /\ ~ In 2 (map fst [ (3, cita "Dra. Ramirez" "9:00");
                        (1, cita "Dr. Lopez" "10:00") ])
  /\ cancel_appointment demo_store 7 = (demo_store, Failed NotFoundError).
Proof.
  assert (home (fst (cancel_appointment demo_store 2)) None
          = Some [ (3, cita "Dra. Ramirez" "9:00");
                   (1, cita "Dr. Lopez" "10:00") ]) as E
    by (vm_compute; reflexivity).
  split; [exact E|]. split.
  - apply (proj1 (cancel_removes_exactly demo_store 2)) with (arg := None).
    + vm_compute. reflexivity.
    + exact E.
  - apply (proj2 (cancel_removes_exactly demo_store 7)).
    vm_compute. reflexivity.
Defined.

(** C5. [create_patient] answers ValidationError when one of the four
    fields is empty once trimmed; otherwise DuplicateDocumentError when a
    stored patient's document, trimmed and lowercased, equals the given
    document trimmed and lowercased; otherwise it stores the trimmed
    fields under the next value of the patient counter and answers with
    that identifier. *)
Theorem register_validation st n d t c :
  let nombre0 := Py.strip (Py.form_get n "") in
  let documento0 := Py.strip (Py.form_get d "") in
  let telefono0 := Py.strip (Py.form_get t "") in
  let correo0 := Py.strip (Py.form_get c "") in
  let complete :=
    nombre0 <> "" /\ documento0 <> "" /\ telefono0 <> "" /\ correo0 <> "" in
  let taken :=
    exists p, In p (Py.values (patients st))
              /\ normalize (documento p) = normalize (Py.form_get d "") in
  let out := create_patient st n d t c in
  (~ complete -> out = (st, Failed ValidationError))
  /\ (complete -> taken -> out = (st, Failed DuplicateDocumentError))
  /\ (complete -> ~ taken ->
      let p := mkPatient nombre0 documento0 telefono0 correo0 in
      out = (mkStore (Py.set (pid_counter st) p (patients st))
                     (appointments st) (pid_counter st + 1) (aid_counter st),
             PatientCreated (pid_counter st))
      /\ Py.get (pid_counter st) (patients (fst out)) = Some p).
Proof.
  intros nombre0 documento0 telefono0 correo0 complete taken out.
  subst out complete. unfold create_patient.
  fold nombre0 documento0 telefono0 correo0.
  assert (taken <-> documento_taken (Py.values (patients st)) documento0 = true)
    as Ht by (symmetry; apply documento_taken_true).
  assert (forallb Py.truthy [nombre0; documento0; telefono0; correo0] = true
          <-> nombre0 <> "" /\ documento0 <> "" /\ telefono0 <> ""
              /\ correo0 <> "") as Hc.
  { simpl. rewrite !andb_true_iff, !truthy_true. tauto. }
  destruct (forallb Py.truthy _); simpl.
  - assert (nombre0 <> "" /\ documento0 <> "" /\ telefono0 <> ""
            /\ correo0 <> "") as Hall by now apply Hc.
    destruct (documento_taken _ _).
    + split; [tauto|]. split; [reflexivity|].
      intros _ Hn. exfalso. apply Hn, Ht. reflexivity.
    + split; [tauto|]. split.
      * intros _ Htk. apply Ht in Htk. discriminate.
      * intros _ _. split; [reflexivity|]. simpl. apply get_set_same.
  - assert (~ (nombre0 <> "" /\ documento0 <> "" /\ telefono0 <> ""
               /\ correo0 <> "")) as Hno
      by (intros Hall; apply Hc in Hall; discriminate).
    split; [reflexivity|]. split; intros; contradiction.
Qed.

Lemma register_validation_witness :
  create_patient demo_store (Some "Juan P.") (Some "  cc-1001 ")
                 (Some "3000000009") (Some "jp@example.com")
  = (demo_store, Failed DuplicateDocumentError).
Proof.
  apply (proj1 (proj2 (register_validation demo_store (Some "Juan P.")
                         (Some "  cc-1001 ") (Some "3000000009")
                         (Some "jp@example.com")))).
  - vm_compute. repeat split; discriminate.
  - exists (mkPatient "Juan Perez" "CC-1001" "3000000001" "juan@example.com").
    vm_compute. auto.
Defined.

(** *** Identifiers *)

(** What one request does to the two counters. *)
Lemma handle_counters st rq :
  let st' := fst (handle st rq) in
  match snd (handle st rq) with
  | PatientCreated i =>
      i = pid_counter st /\ pid_counter st' = pid_counter st + 1
      /\ aid_counter st' = aid_counter st
  | AppointmentCreated i =>
      i = aid_counter st /\ aid_counter st' = aid_counter st + 1
      /\ pid_counter st' = pid_counter st
  | AppointmentCancelled _ | Failed _ | Raised =>
      pid_counter st' = pid_counter st /\ aid_counter st' = aid_counter st
  end.
Proof.
  destruct rq; simpl.
  - unfold create_patient. destruct (negb _); simpl; auto.
    destruct (documento_taken _ _); simpl; auto.
  - unfold create_appointment.
    destruct (negb (Py.contains _ _)); simpl; auto.
    destruct (parse_datetime _ _); simpl; auto.
    destruct (negb (Py.truthy _)); simpl; auto.
    destruct (has_conflict _ _ _ _ _); simpl; auto.
  - rewrite cancel_appointment_eq. destruct (Py.contains _ _); simpl; auto.
Qed.

Lemma run_counters rqs : forall st,
  let st' := fst (run st rqs) in
  let rs := snd (run st rqs) in
  patient_ids rs = count_from (pid_counter st) (List.length (patient_ids rs))
  /\ pid_counter st' = pid_counter st + Z.of_nat (List.length (patient_ids rs))
  /\ appointment_ids rs
     = count_from (aid_counter st) (List.length (appointment_ids rs))
  /\ aid_counter st' = aid_counter st + Z.of_nat (List.length (appointment_ids rs)).
Proof.
  induction rqs as [|rq rqs IH]; intros st; simpl.
  - repeat split; lia.
  - pose proof (handle_counters st rq) as Hc.
    destruct (handle st rq) as [st1 r]. specialize (IH st1).
    destruct (run st1 rqs) as [st2 rs]. simpl in *.
    destruct IH as [Hp [Hpc [Ha Hac]]].
    unfold patient_ids, appointment_ids in *. simpl.
    destruct r; simpl.
    + destruct Hc as [-> [H2 H3]]. rewrite H2, H3 in *.
      repeat split; try assumption; [now f_equal|lia].
    + destruct Hc as [-> [H2 H3]]. rewrite H2, H3 in *.
      repeat split; try assumption; [now f_equal|lia].
    + destruct Hc as [H1 H2]. rewrite H1, H2 in *. auto.
    + destruct Hc as [H1 H2]. rewrite H1, H2 in *. auto.
    + destruct Hc as [H1 H2]. rewrite H1, H2 in *. auto.
Qed.

Lemma count_from_lower n : forall c, Forall (fun k => c <= k) (count_from c n).
Proof.
  induction n as [|n IH]; intros c; simpl; constructor; [lia|].
  eapply Forall_impl; [|apply IH]. simpl. intros; lia.
Qed.

Lemma count_from_increasing n : forall c, StronglySorted Z.lt (count_from c n).
Proof.
  induction n as [|n IH]; intros c; simpl; constructor; [apply IH|].
  eapply Forall_impl; [|apply count_from_lower]. simpl. intros; lia.
Qed.

(** C6. Served from the empty stores, the successful registrations
    receive 1, 2, 3, ... in that order, and so do the successful bookings,
    each kind from its own counter: every identifier is above all those
    handed out before it, cancellations in between give none back, and a
    counter has moved exactly once per success, so that a failed request
    uses up no identifier. *)
Theorem identifiers_sequential rqs :
  let st := fst (run init rqs) in
  let rs := snd (run init rqs) in
  patient_ids rs = count_from 1 (List.length (patient_ids rs))
  /\ appointment_ids rs = count_from 1 (List.length (appointment_ids rs))
  /\ StronglySorted Z.lt (patient_ids rs)
  /\ StronglySorted Z.lt (appointment_ids rs)
  /\ pid_counter st = 1 + Z.of_nat (List.length (patient_ids rs))
  /\ aid_counter st = 1 + Z.of_nat (List.length (appointment_ids rs))
  /\ (forall s rq e, snd (handle s rq) = Failed e -> fst (handle s rq) = s).
Proof.
  intros st rs. subst st rs.
  destruct (run_counters rqs init) as [Hp [Hpc [Ha Hac]]]. simpl in *.
  repeat split; auto.
  - rewrite Hp. apply count_from_increasing.
  - rewrite Ha. apply count_from_increasing.
  - apply failed_unchanged.
Qed.

Lemma identifiers_sequential_witness :
  snd (run init demo_again)
  = [ PatientCreated 1; AppointmentCreated 1; Failed ConflictError;
      AppointmentCreated 2; AppointmentCreated 3; Failed NotFoundError;
      AppointmentCancelled 3; AppointmentCreated 4 ]
  /\ StronglySorted Z.lt (appointment_ids (snd (run init demo_again)))
  /\ aid_counter (fst (run init demo_again)) = 5.
Proof.
  split; [vm_compute; reflexivity|]. split.
  - apply (identifiers_sequential demo_again).
  - rewrite (proj1 (proj2 (proj2 (proj2 (proj2 (proj2
               (identifiers_sequential demo_again))))))).
    vm_compute. reflexivity.
Defined.

(** *** Status *)

Lemma handle_keeps_records st rq i a a' :
  wf st ->
  Py.get i (appointments st) = Some a ->
  Py.get i (appointments (fst (handle st rq))) = Some a' ->
  a' = a.
Proof.
  intros W Ha. destruct rq; simpl.
  - unfold create_patient. destruct (negb _); simpl; [congruence|].
    destruct (documento_taken _ _); simpl; congruence.
  - unfold create_appointment.
    destruct (negb (Py.contains _ _)); simpl; [congruence|].
    destruct (parse_datetime _ _); simpl; [|congruence].
    destruct (negb (Py.truthy _)); simpl; [congruence|].
    destruct (has_conflict _ _ _ _ _); simpl; [congruence|].
    rewrite get_set_other; [congruence|].
    intros ->. apply get_contains in Ha.
    rewrite (bound_fresh _ _ (wf_aids st W)) in Ha. discriminate.
  - rewrite cancel_appointment_eq.
    destruct (Py.contains _ _); simpl; [|congruence].
    destruct (Z.eq_dec i appointment_id) as [->|Hne].
    + now rewrite get_without_same.
    + rewrite get_without_other by exact Hne. congruence.
Qed.

(** C7 as stated fails: the status a booking stores is not the string
    "Scheduled". *)
Lemma status_is_not_Scheduled :
  ~ (forall st, reachable st ->
     forall i a, In (i, a) (appointments st) -> estado a = "Scheduled").
Proof.
  intros H.
  assert (In (1, cita "Dr. Lopez" "10:00") (appointments demo_store)) as Hin
    by (vm_compute; auto).
  specialize (H demo_store demo_reachable _ _ Hin). discriminate.
Qed.

(** C7, amended. Every stored appointment has the status "Programada",
    and a request never alters the record kept under an identifier that
    stays stored: cancelling deletes the record, nothing rewrites it. *)
Theorem status_fixed st :
  reachable st ->
  (forall i a, In (i, a) (appointments st) -> estado a = "Programada")
  /\ (forall rq i a a',
        Py.get i (appointments st) = Some a ->
        Py.get i (appointments (fst (handle st rq))) = Some a' ->
        a' = a).
Proof.
  intros R. pose proof (reachable_wf st R) as W. split.
  - intros i a Hin. pose proof (wf_estado st W) as He.
    rewrite Forall_forall in He. exact (He _ Hin).
  - intros rq i a a'. now apply handle_keeps_records.
Qed.

Lemma status_fixed_witness :
  reachable demo_store
  /\ estado (cita "Dr. Perez" "09:00") = "Programada"
  /\ Py.get 2 (appointments (fst (handle demo_store (PostCancel 3))))
     = Some (cita "Dr. Perez" "09:00").
Proof.
  assert (reachable demo_store) as R by (exists init, demo; split; [left|]; reflexivity).
  split; [exact R|]. split.
  - apply (proj1 (status_fixed demo_store R) 2). vm_compute. auto.
  - vm_compute. reflexivity.
Defined.

(** *** The doctor filter *)

Lemma StronglySorted_filter {A} (R : A -> A -> Prop) (p : A -> bool) l :
  StronglySorted R l -> StronglySorted R (filter p l).
Proof.
  induction 1 as [|x l Hs IH Hall]; simpl; [constructor|].
  destruct (p x); [|exact IH]. constructor; [exact IH|].
  rewrite Forall_forall in *. intros y Hy. apply filter_In in Hy. apply Hall, Hy.
Qed.

(** C8. On a store in which every record's date and time strings read as
    an instant: without a filter the listing holds all the stored
    appointments, in non-decreasing order of those instants; with a filter
    that is not blank it is the unfiltered listing restricted, in the same
    order and so again non-decreasing, to the appointments whose doctor
    equals the filter once both are trimmed and lowercased. *)
Theorem listing_by_doctor st :
  Forall dated (appointments st) ->
  exists every,
    home st None = Some every
    /\ Permutation every (Py.items (appointments st))
    /\ StronglySorted not_after every
    /\ forall who, Py.strip who <> "" ->
         exists l,
           home st (Some who) = Some l
           /\ l = filter (by_doctor who) every
           /\ StronglySorted not_after l
           /\ forall item,
                In item l <->
                In item (appointments st)
                /\ normalize (medico (snd item)) = normalize who.
Proof.
  intros H. destruct (listing_spec _ H) as [every [E [Hp [Hs _]]]].
  exists every. unfold home. rewrite E. simpl.
  repeat split; auto.
  intros who Hw. apply truthy_true in Hw. rewrite Hw.
  exists (filter (by_doctor who) every).
  assert (filter
            (fun item =>
               String.eqb (Py.lower (Py.strip (medico (snd item))))
                          (Py.lower (Py.strip (Py.strip who))))
            every
          = filter (by_doctor who) every) as ->.
  { apply filter_ext. intros item. unfold by_doctor, normalize.
    now rewrite strip_idem. }
  split; [reflexivity|]. split; [reflexivity|].
  split; [now apply StronglySorted_filter|].
  intros item. rewrite filter_In. unfold by_doctor. rewrite String.eqb_eq.
  split; intros [Hin Hn]; (split; [|exact Hn]).
  - apply (Permutation_in _ Hp Hin).
  - apply (Permutation_in _ (Permutation_sym Hp) Hin).
Qed.

(** On the example, with one more appointment of Dr. Lopez at 08:30: asked
    for " dr. LOPEZ", the listing is the 08:30 one, then the 10:00 one. *)
Lemma listing_by_doctor_witness :
  Forall dated (appointments (fst (handle demo_store (book "Dr. Lopez" "08:30"))))
  /\ home (fst (handle demo_store (book "Dr. Lopez" "08:30"))) None
     = Some [ (4, cita "Dr. Lopez" "08:30"); (2, cita "Dr. Perez" "09:00");
              (3, cita "Dra. Ramirez" "9:00"); (1, cita "Dr. Lopez" "10:00") ]
  /\ home (fst (handle demo_store (book "Dr. Lopez" "08:30")))
          (Some " dr. LOPEZ")
     = Some [ (4, cita "Dr. Lopez" "08:30"); (1, cita "Dr. Lopez" "10:00") ]
  /\ StronglySorted not_after
       [ (4, cita "Dr. Lopez" "08:30"); (1, cita "Dr. Lopez" "10:00") ].
Proof.
  set (st := fst (handle demo_store (book "Dr. Lopez" "08:30"))).
  assert (Forall dated (appointments st)) as H
    by (repeat constructor; vm_compute; discriminate).
  split; [exact H|].
  destruct (listing_by_doctor st H) as [every [E [_ [_ F]]]].
  destruct (F " dr. LOPEZ") as [l [El [_ [Hs _]]]]; [vm_compute; discriminate|].
  assert (every = [ (4, cita "Dr. Lopez" "08:30");
                    (2, cita "Dr. Perez" "09:00");
                    (3, cita "Dra. Ramirez" "9:00");
                    (1, cita "Dr. Lopez" "10:00") ]) as Ee.
  { vm_compute in E. injection E as <-. reflexivity. }
  assert (l = [ (4, cita "Dr. Lopez" "08:30");
                (1, cita "Dr. Lopez" "10:00") ]) as Ef.
  { vm_compute in El. injection El as <-. reflexivity. }
  rewrite Ee in E. rewrite Ef in El, Hs. auto.
Defined.

(** *** Stored dates and bad patient identifiers *)

(** C9. In every reachable state each stored date and time parse under
    "%Y-%m-%d %H:%M", so the key function of the sort is defined on every
    stored record and the listing is produced, with or without a filter. *)
Theorem stored_datetimes_parse st :
  reachable st ->
  (forall i a, In (i, a) (appointments st) ->
     exists dt, parse_datetime (fecha a) (hora a) = Some dt)
  /\ (exists l, upcoming_sorted (appointments st) = Some l)
  /\ (forall arg, exists l, home st arg = Some l).
Proof.
  intros R. pose proof (wf_parses st (reachable_wf st R)) as Hp.
  destruct (upcoming_sorted_spec _ Hp) as [l [E _]].
  split; [|split].
  - intros i a Hin. rewrite Forall_forall in Hp. specialize (Hp _ Hin).
    unfold parses in Hp. simpl in Hp.
    destruct (parse_datetime (fecha a) (hora a)) as [dt|]; [eauto|congruence].
  - eauto.
  - intros arg. unfold home. rewrite E. eauto.
Qed.

Lemma stored_datetimes_parse_witness :
  reachable demo_store
  /\ exists dt, parse_datetime "2025-03-10" "9:00" = Some dt.
Proof.
  assert (reachable demo_store) as R by (exists init, demo; split; [left|]; reflexivity).
  split; [exact R|].
  apply (proj1 (stored_datetimes_parse demo_store R) 3
           (cita "Dra. Ramirez" "9:00")).
  vm_compute. auto.
Defined.

(** C10. In every reachable state, a booking whose patient field is
    absent, or present but refused by [int], takes the patient identifier
    to be 0 and answers InvalidPatientError with the stores unchanged:
    identifiers start at 1, so 0 is never registered. *)
Theorem bad_patient_id_rejected st p f h m :
  reachable st ->
  (p = None \/ exists s, p = Some s /\ Py.int s = None) ->
  paciente_id_of p = 0
  /\ create_appointment st p f h m = (st, Failed InvalidPatientError).
Proof.
  intros R Hp. pose proof (reachable_wf st R) as W.
  assert (paciente_id_of p = 0) as E.
  { destruct Hp as [->|[s [-> Hs]]]; unfold paciente_id_of; simpl.
    - reflexivity.
    - now rewrite Hs. }
  split; [exact E|]. unfold create_appointment. rewrite E.
  assert (Py.contains 0 (patients st) = false) as ->; [|reflexivity].
  apply contains_false. intros Hin.
  pose proof (wf_pids st W) as Hb. rewrite Forall_forall in Hb.
  specialize (Hb _ Hin). lia.
Qed.

Lemma bad_patient_id_rejected_witness :
  reachable demo_store
  /\ Py.int "uno" = None
  /\ create_appointment demo_store (Some "uno") (Some "2025-03-11")
                        (Some "08:00") (Some "Dr. Lopez")
     = (demo_store, Failed InvalidPatientError).
Proof.
  assert (reachable demo_store) as R by (exists init, demo; split; [left|]; reflexivity).
  assert (Py.int "uno" = None) as E by (vm_compute; reflexivity).
  split; [exact R|]. split; [exact E|].
  apply (bad_patient_id_rejected demo_store (Some "uno")). 
  - exact R.
  - right. exists "uno". split; [reflexivity|exact E].
Defined.

(** ** Further properties of the code *)

(** *** More that every sequence of requests maintains *)

Lemma count_from_snoc n : forall c,
  count_from c (S n) = count_from c n ++ [c + Z.of_nat n].
Proof.
  induction n as [|n IH]; intros c.
  - simpl. now rewrite Z.add_0_r.
  - change (count_from c (S (S n))) with (c :: count_from (c + 1) (S n)).
    rewrite IH. simpl. do 3 f_equal. lia.
Qed.

Lemma count_from_In n : forall c k,
  In k (count_from c n) <-> c <= k < c + Z.of_nat n.
Proof.
  induction n as [|n IH]; intros c k.
  - simpl. lia.
  - change (count_from c (S n)) with (c :: count_from (c + 1) n).
    simpl In. rewrite IH. lia.
Qed.

Lemma increasing_snoc (l : list Z) c :
  StronglySorted Z.lt l -> Forall (fun k => 1 <= k < c) l ->
  StronglySorted Z.lt (l ++ [c]).
Proof.
  induction 1 as [|x l Hs IH Hx]; intros Hb; simpl.
  - repeat constructor.
  - inversion Hb as [|? ? Hxc Hl]; subst. constructor; [auto|].
    apply Forall_app. split; [exact Hx|]. repeat constructor. lia.
Qed.

Lemma increasing_keys_filter {V} (p : Z * V -> bool) (d : Py.dict V) :
  StronglySorted Z.lt (Py.keys d) -> StronglySorted Z.lt (Py.keys (filter p d)).
Proof.
  unfold Py.keys. induction d as [|kv d IH]; simpl; [auto|].
  intros H. inversion H as [|? ? Hs Hall]; subst.
  destruct (p kv); simpl; [|auto]. constructor; [auto|].
  rewrite Forall_forall in *. intros k Hk. apply Hall.
  apply in_map_iff in Hk as [x [<- Hx]]. apply filter_In in Hx as [Hx _].
  now apply in_map.
Qed.

Lemma contains_app {V} k (d d' : Py.dict V) :
  Py.contains k (d ++ d') = Py.contains k d || Py.contains k d'.
Proof. apply existsb_app. Qed.

Lemma lower_empty s : Py.lower s = "" -> s = "".
Proof. destruct s; simpl; [reflexivity|discriminate]. Qed.

Lemma normalize_trimmed s : trimmed s -> normalize s = Py.lower s.
Proof. unfold trimmed, normalize. now intros ->. Qed.

Lemma strip_trimmed s : trimmed (Py.strip s).
Proof. apply strip_idem. Qed.

Lemma init_tidy : tidy init.
Proof.
  constructor; simpl; try reflexivity; try constructor.
  intros i p j q [].
Qed.

Lemma seed_demo_tidy : tidy (seed_demo init).
Proof.
  constructor; simpl; try reflexivity; try constructor.
  - intros i p j q [E1|[E1|[]]] [E2|[E2|[]]] Hij;
      inversion E1; inversion E2; subst; try congruence;
      vm_compute; discriminate.
  - vm_compute. repeat split; discriminate.
  - repeat constructor; vm_compute; repeat split; discriminate.
Qed.

Lemma create_patient_tidy st n d t c :
  wf st -> tidy st -> tidy (fst (create_patient st n d t c)).
Proof.
  intros W T. unfold create_patient.
  destruct (negb (forallb _ _)) eqn:F; [exact T|].
  destruct (documento_taken _ _) eqn:D; [exact T|].
  apply negb_false_iff in F. simpl in F.
  rewrite !andb_true_iff, !truthy_true in F.
  destruct F as [Fn [Fd [Ft [Fc _]]]].
  pose proof (bound_fresh _ _ (wf_pids st W)) as Hfresh.
  destruct T. simpl. rewrite (set_fresh _ _ _ Hfresh).
  constructor; cbn beta iota; cbn [patients appointments pid_counter aid_counter];
    auto.
  - unfold Py.keys. rewrite map_app, length_app. simpl.
    rewrite Nat.add_1_r, count_from_snoc. f_equal; [exact tidy_pkeys0|].
    f_equal. lia.
  - rewrite length_app. simpl List.length. lia.
  - intros i p j q Hi Hj Hij.
    assert (forall k r, In (k, r) (patients st) ->
              normalize (documento r)
              <> Py.lower (Py.strip (Py.form_get d ""))) as Hnew.
    { intros k r Hr E.
      assert (documento_taken (Py.values (patients st))
                (Py.strip (Py.form_get d "")) = true) as D'.
      { apply documento_taken_true. exists r. split; [|exact E].
        unfold Py.values. change r with (snd (k, r)). now apply in_map. }
      congruence. }
    apply in_app_iff in Hi, Hj. simpl in Hi, Hj.
    destruct Hi as [Hi|[Hi|[]]], Hj as [Hj|[Hj|[]]].
    + exact (tidy_docs0 _ _ _ _ Hi Hj Hij).
    + inversion Hj; subst. cbn [documento].
      rewrite (normalize_trimmed _ (strip_trimmed _)). exact (Hnew _ _ Hi).
    + inversion Hi; subst. cbn [documento].
      rewrite (normalize_trimmed _ (strip_trimmed _)).
      intros E. symmetry in E. exact (Hnew _ _ Hj E).
    + inversion Hi; inversion Hj; subst. congruence.
  - apply Forall_app. split; [exact tidy_pfields0|].
    repeat constructor; simpl; auto using strip_trimmed.
  - eapply Forall_impl; [|exact tidy_afields0]. simpl.
    intros item [Hs Hc]. split; [exact Hs|].
    rewrite contains_app, Hc. reflexivity.
Qed.

Lemma create_appointment_tidy st p f h m :
  wf st -> tidy st -> tidy (fst (create_appointment st p f h m)).
Proof.
  intros W T. unfold create_appointment.
  destruct (negb (Py.contains _ _)) eqn:K; [exact T|].
  destruct (parse_datetime _ _); [|exact T].
  destruct (negb (Py.truthy _)) eqn:M; [exact T|].
  destruct (has_conflict _ _ _ _ _); [exact T|].
  apply negb_false_iff in K, M. apply truthy_true in M.
  pose proof (bound_fresh _ _ (wf_aids st W)) as Hfresh.
  destruct T. cbn [fst]. rewrite (set_fresh _ _ _ Hfresh).
  constructor; cbn [patients appointments pid_counter aid_counter]; auto.
  - unfold Py.keys. rewrite map_app. cbn [map fst].
    apply increasing_snoc; [exact tidy_akeys0|exact (wf_aids st W)].
  - apply Forall_app. split; [exact tidy_afields0|].
    repeat constructor; cbn [snd fecha hora medico paciente_id];
      auto using strip_trimmed.
Qed.

Lemma cancel_appointment_tidy st i :
  tidy st -> tidy (fst (cancel_appointment st i)).
Proof.
  intros T. rewrite cancel_appointment_eq.
  destruct (Py.contains _ _); [|exact T]. destruct T.
  constructor; cbn [fst patients appointments pid_counter aid_counter]; auto.
  - now apply increasing_keys_filter.
  - now apply Forall_without.
Qed.

Lemma handle_tidy st rq : wf st -> tidy st -> tidy (fst (handle st rq)).
Proof.
  destruct rq; simpl;
    auto using create_patient_tidy, create_appointment_tidy,
      cancel_appointment_tidy.
Qed.

Lemma run_tidy rqs : forall st, wf st -> tidy st -> tidy (fst (run st rqs)).
Proof.
  induction rqs as [|rq rqs IH]; intros st W T; simpl; [exact T|].
  pose proof (handle_wf st rq W) as W1.
  pose proof (handle_tidy st rq W T) as T1.
  destruct (handle st rq) as [st1 r]. simpl in W1, T1.
  specialize (IH st1 W1 T1). destruct (run st1 rqs) as [st2 rs]. exact IH.
Qed.

Lemma reachable_tidy st : reachable st -> tidy st.
Proof.
  intros [s0 [rqs [[->| ->] <-]]]; apply run_tidy;
    auto using init_wf, init_tidy, seed_demo_wf, seed_demo_tidy.
Qed.

(** *** The registry *)

(** X1. No two patients share a document, once trimmed and lowercased; an
    identifier names one patient. *)
Theorem documents_unique st :
  reachable st ->
  forall i p j q,
    In (i, p) (patients st) -> In (j, q) (patients st) ->
    (i = j -> p = q)
    /\ (i <> j -> normalize (documento p) <> normalize (documento q)).
Proof.
  intros R i p j q Hp Hq. split.
  - intros <-. pose proof (wf_punique st (reachable_wf st R)) as U.
    apply (get_In _ _ _ U) in Hp, Hq. congruence.
  - exact (tidy_docs st (reachable_tidy st R) i p j q Hp Hq).
Qed.

Lemma documents_unique_witness :
  normalize "CC-1001" <> normalize "CC-1002".
Proof.
  assert (reachable (seed_demo init)) as R
    by (exists (seed_demo init), []; split; [right|]; reflexivity).
  apply (proj2 (documents_unique (seed_demo init) R
                  1 (mkPatient juan_perez "CC-1001" "3000000001"
                               "juan@example.com")
                  2 (mkPatient "Ana Ruiz" "CC-1002" "3000000002"
                               "ana@example.com")
                  ltac:(vm_compute; auto) ltac:(vm_compute; auto))).
  lia.
Defined.

(** X2. The registry holds the identifiers 1, 2, ..., n in the order of
    registration, the counter stands at n + 1, and the patient check of a
    booking passes exactly for the identifiers from 1 up to the counter. *)
Theorem patient_ids_dense st :
  reachable st ->
  Py.keys (patients_page st) = count_from 1 (List.length (patients_page st))
  /\ pid_counter st = 1 + Z.of_nat (List.length (patients_page st))
  /\ forall k, Py.contains k (patients st) = true <-> 1 <= k < pid_counter st.
Proof.
  intros R. destruct (reachable_tidy st R) as [Hk Hc _ _ _ _].
  unfold patients_page, Py.items.
  split; [exact Hk|]. split; [exact Hc|]. intros k.
  rewrite contains_In, Hk, count_from_In. lia.
Qed.

Lemma patient_ids_dense_witness :
  reachable demo_store /\ Py.contains 1 (patients demo_store) = true.
Proof.
  assert (reachable demo_store) as R
    by (exists init, demo; split; [left|]; reflexivity).
  split; [exact R|].
  apply (proj2 (proj2 (patient_ids_dense demo_store R))). vm_compute.
  split; [discriminate|reflexivity].
Defined.

(** X3. What the handlers store is clean: the four fields of a patient and the
    date, time and doctor of an appointment are trimmed, and none of the
    patient's fields nor the doctor is empty. *)
Theorem stored_fields_clean st :
  reachable st ->
  (forall i p, In (i, p) (patients st) -> patient_ok p)
  /\ (forall i a, In (i, a) (appointments st) -> slot_ok a).
Proof.
  intros R. destruct (reachable_tidy st R) as [_ _ _ _ Hp Ha].
  rewrite Forall_forall in Hp, Ha. split.
  - intros i p Hin. exact (Hp _ Hin).
  - intros i a Hin. exact (proj1 (Ha _ Hin)).
Qed.

Lemma stored_fields_clean_witness :
  reachable demo_store /\ slot_ok (cita "Dr. Lopez" "10:00").
Proof.
  assert (reachable demo_store) as R
    by (exists init, demo; split; [left|]; reflexivity).
  split; [exact R|].
  apply (proj2 (stored_fields_clean demo_store R) 1). vm_compute. auto.
Defined.

Lemma contains_get {V} k (d : Py.dict V) :
  Py.contains k d = true -> exists v, Py.get k d = Some v.
Proof.
  induction d as [|[k' v'] d IH]; simpl; [discriminate|].
  destruct (k' =? k); simpl; eauto.
Qed.

(** X4. Patients are never deleted, so the patient of every stored appointment
    is still registered: the agenda never shows a dash for it. *)
Theorem row_patient_found st :
  reachable st ->
  forall i a, In (i, a) (appointments st) ->
    exists p, row_patient st a = Some p /\ In (paciente_id a, p) (patients st).
Proof.
  intros R i a Hin. destruct (reachable_tidy st R) as [_ _ _ _ _ Ha].
  rewrite Forall_forall in Ha. destruct (Ha _ Hin) as [_ Hc].
  destruct (contains_get _ _ Hc) as [p Hp]. exists p.
  split; [exact Hp|]. now apply In_get.
Qed.

Lemma row_patient_found_witness :
  reachable demo_store
  /\ exists p, row_patient demo_store (cita "Dra. Ramirez" "9:00") = Some p
               /\ In (1, p) (patients demo_store).
Proof.
  assert (reachable demo_store) as R
    by (exists init, demo; split; [left|]; reflexivity).
  split; [exact R|].
  apply (row_patient_found demo_store R 3). vm_compute. auto.
Defined.

(** *** Conflicts *)

Lemma excluded_nonzero e k : e <> 0 -> excluded (Some e) k = (k =? e).
Proof.
  intros He. unfold excluded.
  destruct (e =? 0) eqn:E; [apply Z.eqb_eq in E; congruence|reflexivity].
Qed.

Lemma has_conflict_exclude aps m f h e :
  has_conflict aps m f h (Some e)
  = if e =? 0 then has_conflict aps m f h None
    else has_conflict (Py.without e aps) m f h None.
Proof.
  destruct (e =? 0) eqn:E.
  - apply Z.eqb_eq in E. subst e.
    induction aps as [|[k a] aps IH]; simpl; [reflexivity|]. now rewrite IH.
  - apply Z.eqb_neq in E.
    induction aps as [|[k a] aps IH]; [reflexivity|].
    cbn [has_conflict Py.without filter fst].
    rewrite (excluded_nonzero e k E).
    destruct (k =? e); cbn [negb has_conflict excluded]; now rewrite IH.
Qed.

(** X5. Excluding an identifier from the conflict check is checking the store
    without that appointment; identifier 0 is falsy and excludes
    nothing. *)
Theorem has_conflict_exclusion aps m f h e :
  has_conflict aps m f h (Some e)
  = if e =? 0 then has_conflict aps m f h None
    else has_conflict (Py.without e aps) m f h None.
Proof. apply has_conflict_exclude. Qed.

Lemma has_conflict_not_true aps m f h :
  (forall i a, In (i, a) aps ->
     ~ (normalize (medico a) = normalize m /\ fecha a = f /\ hora a = h)) ->
  has_conflict aps m f h None = false.
Proof.
  intros H. destruct (has_conflict aps m f h None) eqn:E; [|reflexivity].
  apply has_conflict_true in E as [i [a [Hin Hc]]]. now destruct (H i a Hin).
Qed.

(** X6. A stored appointment occupies its own slot: asked again, its doctor,
    date and time are in conflict; with its identifier excluded they are
    free, since no other appointment holds them. *)
Theorem stored_slot_taken st :
  reachable st ->
  forall i a, In (i, a) (appointments st) ->
    has_conflict (appointments st) (medico a) (fecha a) (hora a) None = true
    /\ has_conflict (appointments st) (medico a) (fecha a) (hora a) (Some i)
       = false.
Proof.
  intros R i a Hin. pose proof (reachable_wf st R) as W. split.
  - apply has_conflict_true. exists i, a. auto.
  - rewrite has_conflict_exclude.
    assert (1 <= i) as Hi.
    { pose proof (wf_aids st W) as Hb. rewrite Forall_forall in Hb.
      assert (In i (Py.keys (appointments st))) as Hk
        by (change i with (fst (i, a)); now apply in_map).
      specialize (Hb _ Hk). lia. }
    destruct (i =? 0) eqn:E; [apply Z.eqb_eq in E; lia|].
    apply has_conflict_not_true. intros j b Hj Hc.
    apply In_without in Hj as [Hj Hne]. simpl in Hne.
    apply clash_true in Hc. rewrite (wf_free st W _ _ _ _ Hj Hin Hne) in Hc.
    discriminate.
Qed.

Lemma stored_slot_taken_witness :
  reachable demo_store
  /\ has_conflict (appointments demo_store) "Dr. Perez" "2025-03-10" "09:00"
                  (Some 2) = false.
Proof.
  assert (reachable demo_store) as R
    by (exists init, demo; split; [left|]; reflexivity).
  split; [exact R|].
  apply (proj2 (stored_slot_taken demo_store R 2 (cita "Dr. Perez" "09:00")
                  ltac:(vm_compute; auto))).
Defined.

(** *** Bookings that go through *)

Lemma create_appointment_success st p f h m :
  wf st ->
  Py.contains (paciente_id_of p) (patients st) = true ->
  parse_datetime (Py.strip (Py.form_get f "")) (Py.strip (Py.form_get h ""))
  <> None ->
  Py.strip (Py.form_get m "") <> "" ->
  (forall i a, In (i, a) (appointments st) ->
     ~ (normalize (medico a) = normalize (Py.strip (Py.form_get m ""))
        /\ fecha a = Py.strip (Py.form_get f "")
        /\ hora a = Py.strip (Py.form_get h ""))) ->
  create_appointment st p f h m
  = (mkStore (patients st)
       (appointments st
        ++ [(aid_counter st,
             mkAppointment (paciente_id_of p) (Py.strip (Py.form_get f ""))
               (Py.strip (Py.form_get h "")) (Py.strip (Py.form_get m ""))
               "Programada")])
       (pid_counter st) (aid_counter st + 1),
     AppointmentCreated (aid_counter st)).
Proof.
  intros W K P M F. unfold create_appointment. rewrite K. cbn [negb].
  destruct (parse_datetime _ _); [|congruence].
  apply truthy_true in M. rewrite M. cbn [negb].
  rewrite (has_conflict_not_true _ _ _ _ F).
  now rewrite (set_fresh _ _ _ (bound_fresh _ _ (wf_aids st W))).
Qed.

Lemma create_appointment_created st p f h m id :
  snd (create_appointment st p f h m) = AppointmentCreated id ->
  Py.contains (paciente_id_of p) (patients st) = true
  /\ parse_datetime (Py.strip (Py.form_get f ""))
                    (Py.strip (Py.form_get h "")) <> None
  /\ Py.strip (Py.form_get m "") <> ""
  /\ (forall i a, In (i, a) (appointments st) ->
        ~ (normalize (medico a) = normalize (Py.strip (Py.form_get m ""))
           /\ fecha a = Py.strip (Py.form_get f "")
           /\ hora a = Py.strip (Py.form_get h "")))
  /\ id = aid_counter st.
Proof.
  unfold create_appointment.
  destruct (Py.contains _ _); cbn [negb]; [|discriminate].
  destruct (parse_datetime _ _); [|discriminate].
  destruct (Py.truthy _) eqn:M; cbn [negb]; [|discriminate].
  destruct (has_conflict _ _ _ _ _) eqn:C; [discriminate|].
  cbn [snd]. intros [= <-]. apply truthy_true in M.
  repeat split; auto; try discriminate.
  exact (has_conflict_false _ _ _ _ C).
Qed.

(** X7. In a reachable state a booking goes through exactly when the patient
    is registered, the trimmed date and time parse, the trimmed doctor is
    not empty and no stored appointment has that doctor (normalised) with
    those very date and time strings.  It then appends, under the next
    value of the counter, the record made of the trimmed fields. *)
Theorem booking_accepted st p f h m :
  reachable st ->
  let fecha0 := Py.strip (Py.form_get f "") in
  let hora0 := Py.strip (Py.form_get h "") in
  let medico0 := Py.strip (Py.form_get m "") in
  let accepted :=
    Py.contains (paciente_id_of p) (patients st) = true
    /\ parse_datetime fecha0 hora0 <> None
    /\ medico0 <> ""
    /\ (forall i a, In (i, a) (appointments st) ->
          ~ (normalize (medico a) = normalize medico0
             /\ fecha a = fecha0 /\ hora a = hora0)) in
  (accepted ->
   create_appointment st p f h m
   = (mkStore (patients st)
        (appointments st
         ++ [(aid_counter st,
              mkAppointment (paciente_id_of p) fecha0 hora0 medico0
                            "Programada")])
        (pid_counter st) (aid_counter st + 1),
      AppointmentCreated (aid_counter st)))
  /\ ((exists id, snd (create_appointment st p f h m) = AppointmentCreated id)
      -> accepted).
Proof.
  intros R fecha0 hora0 medico0 accepted. split.
  - intros [K [P [M F]]].
    now apply create_appointment_success; [apply reachable_wf| | | |].
  - intros [id H]. apply create_appointment_created in H.
    unfold accepted. tauto.
Qed.

(** The same doctor at the same instant, the hour written without its
    leading zero: the strings differ, so the booking goes through. *)
Lemma booking_accepted_witness :
  reachable demo_store
  /\ parse_datetime "2025-03-10" "9:00" = parse_datetime "2025-03-10" "09:00"
  /\ snd (create_appointment demo_store (Some "1") (Some "2025-03-10")
            (Some "9:00") (Some "Dr. Perez"))
     = AppointmentCreated 4.
Proof.
  assert (reachable demo_store) as R
    by (exists init, demo; split; [left|]; reflexivity).
  split; [exact R|]. split; [vm_compute; reflexivity|].
  rewrite (proj1 (booking_accepted demo_store (Some "1") (Some "2025-03-10")
                    (Some "9:00") (Some "Dr. Perez") R)).
  - vm_compute. reflexivity.
  - split; [vm_compute; reflexivity|]. split; [vm_compute; discriminate|].
    split; [vm_compute; discriminate|].
    intros i a Hin [H1 [H2 H3]].
    assert (In (i, a) [ (1, cita "Dr. Lopez" "10:00");
                        (2, cita "Dr. Perez" "09:00");
                        (3, cita "Dra. Ramirez" "9:00") ]) as Hin'
      by exact Hin.
    simpl in Hin'.
    destruct Hin' as [E|[E|[E|[]]]]; inversion E; subst a;
      vm_compute in H1, H3; discriminate.
Defined.

(** *** The agenda *)

Lemma home_eq st arg :
  home st arg
  = match upcoming_sorted (appointments st) with
    | None => None
    | Some l =>
        Some (if Py.truthy (Py.strip (Py.form_get arg ""))
              then filter (by_doctor (Py.form_get arg "")) l
              else l)
    end.
Proof.
  unfold home. destruct (upcoming_sorted _) as [l|]; [|reflexivity].
  destruct (Py.truthy _); [|reflexivity]. f_equal.
  apply filter_ext. intros item. unfold by_doctor, normalize.
  now rewrite strip_idem.
Qed.



(** X9. The filter of the agenda counts only through its trimmed, lowercased
    form, and a blank filter is no filter. *)
Theorem filter_normalised st who who' :
  (Py.strip who = "" -> home st (Some who) = home st None)
  /\ (normalize who = normalize who' ->
      home st (Some who) = home st (Some who')).
Proof.
  rewrite !home_eq. cbn [Py.form_get].
  destruct (upcoming_sorted _) as [l|]; [|split; reflexivity]. split.
  - intros ->. vm_compute Py.truthy. reflexivity.
  - intros E. assert (Py.truthy (Py.strip who) = Py.truthy (Py.strip who')) as T.
    { unfold normalize in E.
      destruct (Py.strip who) eqn:A, (Py.strip who') eqn:B; simpl in *;
        congruence. }
    rewrite T. destruct (Py.truthy (Py.strip who')); [|reflexivity]. f_equal.
    apply filter_ext. intros item. unfold by_doctor. now rewrite E.
Qed.

Lemma filter_normalised_witness :
  home demo_store (Some "  ") = home demo_store None
  /\ home demo_store (Some "DR. LOPEZ ") = home demo_store (Some "dr. lopez").
Proof.
  split.
  - apply (proj1 (filter_normalised demo_store "  " "")). vm_compute.
    reflexivity.
  - apply (proj2 (filter_normalised demo_store "DR. LOPEZ " "dr. lopez")).
    vm_compute. reflexivity.
Defined.

Lemma StronglySorted_classes {A C} (R B : A -> A -> Prop)
      (P : C -> A -> bool) l :
  StronglySorted R l ->
  (forall c, StronglySorted B (filter (P c) l)) ->
  StronglySorted
    (fun x y => R x y /\ forall c, P c x = true -> P c y = true -> B x y) l.
Proof.
  induction 1 as [|x l Hs IH Hall]; intros Hc; constructor.
  - apply IH. intros c. specialize (Hc c). simpl in Hc.
    destruct (P c x); [now inversion Hc|exact Hc].
  - rewrite Forall_forall in *. intros y Hy. split; [auto|].
    intros c Px Py. specialize (Hc c). simpl in Hc. rewrite Px in Hc.
    inversion Hc as [|? ? _ Hf]; subst. rewrite Forall_forall in Hf.
    apply Hf. apply filter_In. auto.
Qed.

Lemma increasing_items {V} (d : Py.dict V) :
  StronglySorted Z.lt (Py.keys d) ->
  StronglySorted (fun x y => fst x < fst y) d.
Proof.
  unfold Py.keys. induction d as [|kv d IH]; simpl; [constructor|].
  intros H. inversion H as [|? ? Hs Hall]; subst. constructor; [auto|].
  rewrite Forall_forall in *. intros y Hy. apply Hall. now apply in_map.
Qed.

(** X10. In a reachable state the agenda, filtered or not, is in increasing
    order of the instant each record's own date and time strings name
    (year, month, day, hour, minute) and, among appointments at the same
    instant, of identifier: no two rows are left in an undetermined
    order. *)
Theorem agenda_order st arg :
  reachable st ->
  exists l, home st arg = Some l /\ StronglySorted agenda_lt l.
Proof.
  intros R.
  pose proof (wf_parses st (reachable_wf st R)) as Hp.
  pose proof (tidy_akeys st (reachable_tidy st R)) as Hk.
  destruct (upcoming_sorted_spec _ Hp) as [l [E [_ [Hs Hf]]]].
  assert (StronglySorted agenda_lt l) as Hl.
  { apply (StronglySorted_mono
             (fun x y => key_le x y
                         /\ forall d, key_same d x = true ->
                                      key_same d y = true -> fst x < fst y)).
    - intros x y [Hle Hid]. unfold agenda_lt, key_le, key_same in *.
      rewrite !keyfun_instant in Hle.
      destruct (instant (snd x)) as [kx|] eqn:Ex; [|contradiction].
      destruct (instant (snd y)) as [ky|] eqn:Ey; [|contradiction].
      exists kx, ky. split; [reflexivity|]. split; [reflexivity|].
      destruct (Py.dt_ltb kx ky) eqn:Lt;
        [left; now apply dt_ltb_earlier|right].
      assert (Py.dt_same kx ky = true) as S
        by (unfold Py.dt_same; now rewrite Lt, Hle).
      split; [now apply dt_same_eq|].
      apply (Hid ky); rewrite keyfun_instant.
      + now rewrite Ex.
      + rewrite Ey. now apply dt_same_eq.
    - apply StronglySorted_classes; [exact Hs|].
      intros d. rewrite Hf. apply StronglySorted_filter.
      now apply increasing_items. }
  rewrite home_eq, E. eexists. split; [reflexivity|].
  destruct (Py.truthy _); [now apply StronglySorted_filter|exact Hl].
Qed.

(** On the example: 09:00 and 9:00 are one instant, so identifier 2 comes
    before identifier 3, and both before 10:00. *)
Lemma agenda_order_witness :
  reachable demo_store
  /\ home demo_store None
     = Some [ (2, cita "Dr. Perez" "09:00"); (3, cita "Dra. Ramirez" "9:00");
              (1, cita "Dr. Lopez" "10:00") ]
  /\ StronglySorted agenda_lt
       [ (2, cita "Dr. Perez" "09:00"); (3, cita "Dra. Ramirez" "9:00");
         (1, cita "Dr. Lopez" "10:00") ].
Proof.
  assert (reachable demo_store) as R
    by (exists init, demo; split; [left|]; reflexivity).
  split; [exact R|].
  destruct (agenda_order demo_store None R) as [l [E Hs]].
  assert (l = [ (2, cita "Dr. Perez" "09:00");
                (3, cita "Dra. Ramirez" "9:00");
                (1, cita "Dr. Lopez" "10:00") ]) as El.
  { vm_compute in E. injection E as <-. reflexivity. }
  rewrite El in E, Hs. auto.
Defined.

(** *** How the requests compose *)

Lemma run_snoc rqs : forall st rq,
  fst (run st (rqs ++ [rq])) = fst (handle (fst (run st rqs)) rq).
Proof.
  induction rqs as [|r rqs IH]; intros st rq; simpl.
  - now destruct (handle st rq).
  - destruct (handle st r) as [st1 o]. specialize (IH st1 rq).
    destruct (run st1 (rqs ++ [rq])), (run st1 rqs). exact IH.
Qed.

Lemma reachable_step st rq : reachable st -> reachable (fst (handle st rq)).
Proof.
  intros [s0 [rqs [H0 <-]]]. exists s0, (rqs ++ [rq]).
  split; [exact H0|apply run_snoc].
Qed.

Lemma In_set {V} k (v : V) d : In (k, v) (Py.set k v d).
Proof.
  induction d as [|[k' v'] d IH]; simpl; [now left|].
  destruct (k' =? k); simpl; auto.
Qed.

(** X11. A booking that went through shows in the agenda that follows, without
    a filter and under any filter that names its doctor in whatever case
    and with whatever blanks around. *)
Theorem booked_is_listed st p f h m id :
  reachable st ->
  snd (create_appointment st p f h m) = AppointmentCreated id ->
  let st' := fst (create_appointment st p f h m) in
  let a := mkAppointment (paciente_id_of p) (Py.strip (Py.form_get f ""))
             (Py.strip (Py.form_get h "")) (Py.strip (Py.form_get m ""))
             "Programada" in
  (exists l, home st' None = Some l /\ In (id, a) l)
  /\ (forall who, normalize who = normalize (Py.form_get m "") ->
      exists l, home st' (Some who) = Some l /\ In (id, a) l).
Proof.
  intros R H st' a.
  destruct (create_appointment_created _ _ _ _ _ _ H) as [K [P [M [F ->]]]].
  pose proof (reachable_wf st R) as W.
  assert (In (aid_counter st, a) (appointments st')) as Hin.
  { subst st'. rewrite (create_appointment_success st p f h m W K P M F).
    cbn [fst appointments]. apply in_app_iff. right. now left. }
  assert (reachable st') as R'
    by exact (reachable_step st (PostAppointment p f h m) R).
  destruct (upcoming_sorted_spec _ (wf_parses st' (reachable_wf st' R')))
    as [l [E [Hp _]]].
  assert (In (aid_counter st, a) l) as Hl
    by exact (Permutation_in _ (Permutation_sym Hp) Hin).
  split.
  - exists l. rewrite home_eq, E. auto.
  - intros who Hw. rewrite home_eq, E. cbn [Py.form_get].
    assert (Py.truthy (Py.strip who) = true) as ->.
    { apply truthy_true. intros Hs. unfold normalize in Hw.
      rewrite Hs in Hw. symmetry in Hw. apply lower_empty in Hw. auto. }
    eexists. split; [reflexivity|]. apply filter_In. split; [exact Hl|].
    unfold by_doctor. apply String.eqb_eq. subst a. cbn [snd medico].
    now rewrite normalize_strip.
Qed.

Lemma booked_is_listed_witness :
  exists l,
    home (fst (create_appointment demo_store (Some "1") (Some "2025-03-10")
                 (Some "11:30") (Some "Dra. Gonzalez")))
         (Some " dra. GONZALEZ")
    = Some l
    /\ In (4, cita "Dra. Gonzalez" "11:30") l.
Proof.
  assert (reachable demo_store) as R
    by (exists init, demo; split; [left|]; reflexivity).
  apply (proj2 (booked_is_listed demo_store (Some "1") (Some "2025-03-10")
                  (Some "11:30") (Some "Dra. Gonzalez") 4 R
                  ltac:(vm_compute; reflexivity))).
  vm_compute. reflexivity.
Defined.

Lemma reachable_slot_ok st i a :
  reachable st -> In (i, a) (appointments st) -> slot_ok a.
Proof.
  intros R Hin. pose proof (tidy_afields st (reachable_tidy st R)) as Ha.
  rewrite Forall_forall in Ha. exact (proj1 (Ha _ Hin)).
Qed.

(** X12. Cancelling an appointment frees its slot: asked next for a
    registered patient, its doctor, date and time are booked, under a new
    identifier. *)
Theorem cancel_frees_slot st i a p :
  reachable st ->
  In (i, a) (appointments st) ->
  Py.contains (paciente_id_of p) (patients st) = true ->
  let st1 := fst (cancel_appointment st i) in
  snd (cancel_appointment st i) = AppointmentCancelled i
  /\ snd (create_appointment st1 p (Some (fecha a)) (Some (hora a))
            (Some (medico a)))
     = AppointmentCreated (aid_counter st)
  /\ i < aid_counter st.
Proof.
  intros R Hin K st1.
  pose proof (reachable_wf st R) as W.
  destruct (reachable_slot_ok st i a R Hin) as [Tf [Th [Tm Mne]]].
  assert (Py.contains i (appointments st) = true) as Hc.
  { apply contains_In. change i with (fst (i, a)). now apply in_map. }
  assert (cancel_appointment st i
          = (mkStore (patients st) (Py.without i (appointments st))
                     (pid_counter st) (aid_counter st),
             AppointmentCancelled i)) as E
    by (rewrite cancel_appointment_eq, Hc; reflexivity).
  subst st1. rewrite E. cbn [fst snd]. split; [reflexivity|]. split.
  - rewrite create_appointment_success; cbn [Py.form_get patients appointments
                                              aid_counter snd].
    + reflexivity.
    + pose proof (cancel_appointment_wf st i W) as W1.
      rewrite E in W1. exact W1.
    + exact K.
    + rewrite Tf, Th. pose proof (wf_parses st W) as Hp.
      rewrite Forall_forall in Hp. exact (Hp _ Hin).
    + now rewrite Tm.
    + intros j b Hj Hm. apply In_without in Hj as [Hj Hne]. cbn [fst] in Hne.
      rewrite Tf, Th, Tm in Hm.
      assert (clash b a = true) as Cl by now apply clash_true.
      rewrite (wf_free st W _ _ _ _ Hj Hin Hne) in Cl. discriminate.
  - pose proof (wf_aids st W) as Hb. rewrite Forall_forall in Hb.
    apply (Hb i). change i with (fst (i, a)). now apply in_map.
Qed.

Lemma cancel_frees_slot_witness :
  reachable demo_store
  /\ snd (create_appointment (fst (cancel_appointment demo_store 1))
            (Some "1") (Some "2025-03-10") (Some "10:00") (Some "Dr. Lopez"))
     = AppointmentCreated 4.
Proof.
  assert (reachable demo_store) as R
    by (exists init, demo; split; [left|]; reflexivity).
  split; [exact R|].
  apply (cancel_frees_slot demo_store 1 (cita "Dr. Lopez" "10:00") (Some "1") R).
  - vm_compute. auto.
  - vm_compute. reflexivity.
Defined.

Lemma contains_without {V} k (d : Py.dict V) :
  Py.contains k (Py.without k d) = false.
Proof.
  apply contains_false. unfold Py.keys. intros H.
  apply in_map_iff in H as [kv [E H]]. apply In_without in H. tauto.
Qed.

(** X13. Cancelling the same identifier again, whatever the first answer was,
    answers NotFoundError and changes nothing. *)
Theorem cancel_twice st i :
  let st1 := fst (cancel_appointment st i) in
  cancel_appointment st1 i = (st1, Failed NotFoundError).
Proof.
  intros st1. subst st1. rewrite (cancel_appointment_eq st i).
  destruct (Py.contains i (appointments st)) eqn:C; cbn [fst];
    rewrite cancel_appointment_eq; cbn [appointments].
  - now rewrite contains_without.
  - now rewrite C.
Qed.

(** X14. After a registration that went through, a second one whose document
    is the same up to case and surrounding blanks answers
    DuplicateDocumentError and changes nothing, whatever its other
    fields. *)
Theorem register_twice st n d t c id n' d' t' c' :
  snd (create_patient st n d t c) = PatientCreated id ->
  Py.strip (Py.form_get n' "") <> "" ->
  Py.strip (Py.form_get t' "") <> "" ->
  Py.strip (Py.form_get c' "") <> "" ->
  normalize (Py.form_get d' "") = normalize (Py.form_get d "") ->
  let st1 := fst (create_patient st n d t c) in
  create_patient st1 n' d' t' c' = (st1, Failed DuplicateDocumentError).
Proof.
  intros H Hn Ht Hc Hd st1.
  assert (Py.strip (Py.form_get d "") <> ""
          /\ exists q, In q (Py.values (patients st1))
                       /\ documento q = Py.strip (Py.form_get d "")) as [Fd Hq].
  { subst st1. revert H. unfold create_patient.
    destruct (negb (forallb _ _)) eqn:F; [discriminate|].
    destruct (documento_taken _ _); [discriminate|]. intros _.
    apply negb_false_iff in F. simpl in F.
    rewrite !andb_true_iff, !truthy_true in F. destruct F as [_ [Fd _]].
    split; [exact Fd|]. cbn [fst patients]. eexists. split.
    - unfold Py.values. apply in_map. apply In_set.
    - reflexivity. }
  destruct Hq as [q [Hq Eq]]. clearbody st1. unfold create_patient.
  assert (Py.strip (Py.form_get d' "") <> "") as Hd'.
  { intros E. unfold normalize in Hd. rewrite E in Hd. symmetry in Hd.
    apply lower_empty in Hd. auto. }
  assert (forallb Py.truthy
            [Py.strip (Py.form_get n' ""); Py.strip (Py.form_get d' "");
             Py.strip (Py.form_get t' ""); Py.strip (Py.form_get c' "")]
          = true) as ->.
  { simpl. rewrite !andb_true_iff, !truthy_true. auto. }
  cbn [negb].
  match goal with
  | |- (if documento_taken ?ps ?doc then _ else _) = _ =>
      assert (documento_taken ps doc = true) as ->; [|reflexivity]
  end.
  apply documento_taken_true. exists q. split; [exact Hq|].
  rewrite Eq, normalize_strip. symmetry. exact Hd.
Qed.

Lemma register_twice_witness :
  create_patient (fst (handle init juan)) (Some "J. Perez") (Some " cc-1001")
                 (Some "3000000001") (Some "jp@example.com")
  = (fst (handle init juan), Failed DuplicateDocumentError).
Proof.
  apply (register_twice init (Some "Juan Perez") (Some "CC-1001")
           (Some "3000000001") (Some "juan@example.com") 1);
    vm_compute; reflexivity || discriminate.
Defined.

(** X15. After a booking that went through, a second one for any registered
    patient with the same doctor up to case and surrounding blanks and the
    same trimmed date and time answers ConflictError and changes
    nothing. *)
Theorem book_twice st p f h m id p' f' h' m' :
  snd (create_appointment st p f h m) = AppointmentCreated id ->
  Py.contains (paciente_id_of p') (patients st) = true ->
  Py.strip (Py.form_get f' "") = Py.strip (Py.form_get f "") ->
  Py.strip (Py.form_get h' "") = Py.strip (Py.form_get h "") ->
  normalize (Py.form_get m' "") = normalize (Py.form_get m "") ->
  let st1 := fst (create_appointment st p f h m) in
  create_appointment st1 p' f' h' m' = (st1, Failed ConflictError).
Proof.
  intros H K' Hf Hh Hm st1.
  destruct (create_appointment_created _ _ _ _ _ _ H) as [K [P [M [F ->]]]].
  assert (patients st1 = patients st
          /\ In (aid_counter st,
                 mkAppointment (paciente_id_of p) (Py.strip (Py.form_get f ""))
                   (Py.strip (Py.form_get h "")) (Py.strip (Py.form_get m ""))
                   "Programada")
                (appointments st1)) as [Ep Hin].
  { subst st1. revert H. unfold create_appointment.
    destruct (negb (Py.contains _ _)); [discriminate|].
    destruct (parse_datetime _ _); [|discriminate].
    destruct (negb (Py.truthy _)); [discriminate|].
    destruct (has_conflict _ _ _ _ _); [discriminate|].
    intros _. cbn [fst patients appointments]. split; [reflexivity|].
    apply In_set. }
  clearbody st1. unfold create_appointment. rewrite Ep, K'. cbn [negb].
  rewrite Hf, Hh. destruct (parse_datetime _ _); [|congruence].
  assert (Py.strip (Py.form_get m' "") <> "") as M'.
  { intros E. unfold normalize in Hm. rewrite E in Hm. symmetry in Hm.
    apply lower_empty in Hm. auto. }
  apply truthy_true in M'. rewrite M'. cbn [negb].
  match goal with
  | |- (if ?c then _ else _) = _ => assert (c = true) as ->; [|reflexivity]
  end.
  apply has_conflict_true. eexists. eexists. split; [exact Hin|].
  cbn [medico fecha hora]. rewrite !normalize_strip. auto.
Qed.

Lemma book_twice_witness :
  snd (create_appointment
         (fst (create_appointment (fst (run init [juan])) (Some "1")
                 (Some "2025-03-10") (Some "10:00") (Some "Dr. Lopez")))
         (Some " 1 ") (Some "2025-03-10 ") (Some "10:00") (Some "DR. LOPEZ"))
  = Failed ConflictError.
Proof.
  rewrite (book_twice (fst (run init [juan])) (Some "1") (Some "2025-03-10")
             (Some "10:00") (Some "Dr. Lopez") 1 (Some " 1 ")
             (Some "2025-03-10 ") (Some "10:00") (Some "DR. LOPEZ"));
    vm_compute; reflexivity.
Defined.

(** *** Datos semilla *)

(** X16. [seed_demo] only fills an empty registry: on any other it does
    nothing, twice is once, and it never touches the appointments or
    their counter. *)
Theorem seed_demo_once st :
  seed_demo (seed_demo st) = seed_demo st
  /\ (patients st <> [] -> seed_demo st = st)
  /\ appointments (seed_demo st) = appointments st
  /\ aid_counter (seed_demo st) = aid_counter st
  /\ (patients st = [] ->
      Py.keys (patients (seed_demo st)) = [pid_counter st; pid_counter st + 1]
      /\ pid_counter (seed_demo st) = pid_counter st + 2).
Proof.
  unfold seed_demo. destruct (patients st) eqn:E.
  - cbn [Py.set patients appointments aid_counter pid_counter].
    assert ((pid_counter st =? pid_counter st + 1) = false) as ->
      by (apply Z.eqb_neq; lia).
    split; [reflexivity|]. split; [congruence|].
    split; [reflexivity|]. split; [reflexivity|].
    intros _. split; [reflexivity|lia].
  - rewrite E. split; [reflexivity|]. split; [reflexivity|].
    split; [reflexivity|]. split; [reflexivity|]. discriminate.
Qed.

Lemma seed_demo_once_witness :
  seed_demo demo_store = demo_store
  /\ Py.keys (patients (seed_demo init)) = [1; 2].
Proof.
  split.
  - apply (proj1 (proj2 (seed_demo_once demo_store))). vm_compute.
    discriminate.
  - apply (proj2 (proj2 (proj2 (proj2 (seed_demo_once init))))). reflexivity.
Defined.

(** *** What [parse_datetime] accepts *)

Lemma is_leap_year y : Py.is_leap y = true <-> leap_year y.
Proof.
  unfold Py.is_leap, leap_year.
  rewrite andb_true_iff, orb_true_iff, negb_true_iff, !Z.eqb_eq, Z.eqb_neq.
  tauto.
Qed.

Lemma days_in_month_calendar y m dd :
  1 <= m <= 12 -> 1 <= dd <= Py.days_in_month y m ->
  dd <= 31
  /\ (In m [4; 6; 9; 11] -> dd <= 30)
  /\ (m = 2 -> dd <= 29)
  /\ (m = 2 -> dd = 29 -> leap_year y).
Proof.
  intros Hm Hd. unfold Py.days_in_month in Hd.
  destruct (Z.eqb_spec m 2) as [E2|N2].
  - destruct (Py.is_leap y) eqn:L.
    + apply is_leap_year in L. simpl. intuition lia.
    + simpl. intuition lia.
  - destruct (Z.eqb_spec m 4), (Z.eqb_spec m 6), (Z.eqb_spec m 9),
      (Z.eqb_spec m 11); simpl in *; intuition lia.
Qed.

(** X17. Whatever [parse_datetime] accepts is a date of the calendar and a
    time of the day, the calendar being stated on its own: year 1 to 9999,
    month 1 to 12, day 1 to 31, at most 30 in April, June, September and
    November, at most 29 in February and 29 only in a leap year (a
    multiple of 4 that is not a multiple of 100, or a multiple of 400),
    hour 0 to 23, minute 0 to 59. *)
Theorem parsed_is_calendar f h d :
  parse_datetime f h = Some d -> on_calendar d.
Proof.
  unfold parse_datetime, Py.strptime.
  destruct (Py.regex_match _) as [[[[[[y m] dd] hh] mi] rest]|];
    [|discriminate].
  destruct rest; [|discriminate]. unfold Py.make_datetime.
  destruct (_ && _) eqn:E; [|discriminate]. intros [= <-].
  rewrite !andb_true_iff, !Z.leb_le in E.
  destruct (days_in_month_calendar y m dd) as [H31 [H30 [H29 HL]]];
    [lia|lia|].
  unfold on_calendar. cbn [Py.year Py.month Py.day Py.hour Py.minute].
  split; [lia|]. split; [lia|]. split; [lia|]. split; [exact H30|].
  split; [exact H29|]. split; [exact HL|]. lia.
Qed.

(** 29 February 2024 is accepted, so 2024 is a leap year; 29 February
    1900 and 31 April are not dates, so they are not accepted. *)
Lemma parsed_is_calendar_witness :
  leap_year 2024
  /\ parse_datetime "1900-02-29" "10:00" = None
  /\ parse_datetime "2025-04-31" "10:00" = None.
Proof.
  split; [|split].
  - destruct (parsed_is_calendar "2024-02-29" "23:59"
                (Py.mkDatetime 2024 2 29 23 59))
      as [_ [_ [_ [_ [_ [HL _]]]]]]; [vm_compute; reflexivity|].
    apply HL; reflexivity.
  - destruct (parse_datetime "1900-02-29" "10:00") as [d|] eqn:E;
      [|reflexivity].
    vm_compute in E. discriminate.
  - destruct (parse_datetime "2025-04-31" "10:00") as [d|] eqn:E;
      [|reflexivity].
    vm_compute in E. discriminate.
Defined.

Lemma alt_inv {R} alts s (k : Z -> string -> option R) res :
  Py.alt alts s k = Some res ->
  exists a v r, In a alts /\ a s = Some (v, r) /\ k v r = Some res.
Proof.
  induction alts as [|a alts IH]; simpl; [discriminate|].
  destruct (a s) as [[v r]|] eqn:A.
  - destruct (k v r) as [x|] eqn:K.
    + intros [= <-]. exists a, v, r. auto.
    + intros H. destruct (IH H) as [b [w [t [Hb Ht]]]]. exists b, w, t. auto.
  - intros H. destruct (IH H) as [b [w [t [Hb Ht]]]]. exists b, w, t. auto.
Qed.

Lemma lit_inv {R} ch s (k : string -> option R) res :
  Py.lit ch s k = Some res -> exists r, s = String ch r /\ k r = Some res.
Proof.
  destruct s as [|c r]; simpl; [discriminate|].
  destruct (Ascii.eqb c ch) eqn:E; [|discriminate].
  apply Ascii.eqb_eq in E. subst. eauto.
Qed.

Lemma spaces_inv {R} s (k : string -> option R) res :
  Py.spaces s k = Some res ->
  exists x r, s = (x ++ r)%string /\ k r = Some res.
Proof.
  induction s as [|c s IH]; simpl; [discriminate|].
  destruct (Py.isspace c); [|discriminate].
  destruct (Py.spaces s k) as [y|] eqn:E.
  - intros [= <-]. destruct (IH eq_refl) as [x [r [-> Hr]]].
    exists (String c x), r. auto.
  - intros H. exists (String c ""), s. auto.
Qed.

Lemma eats_one p : eats (Py.one p).
Proof.
  intros [|c s] v r; simpl; [discriminate|].
  destruct (p c); [|discriminate]. intros [= _ <-]. now exists (String c "").
Qed.

Lemma eats_two p q : eats (Py.two p q).
Proof.
  intros [|c [|d s]] v r; simpl; try discriminate.
  destruct (p c && q d); [|discriminate]. intros [= _ <-].
  now exists (String c (String d "")).
Qed.

Lemma eats_blank_then p : eats (Py.blank_then p).
Proof.
  intros [|c [|d s]] v r; simpl; try discriminate.
  destruct (_ && _); [|discriminate]. intros [= _ <-].
  now exists (String c (String d "")).
Qed.

Lemma eats_re_Y : Forall eats Py.re_Y.
Proof.
  repeat constructor. intros [|a [|b [|c [|d s]]]] v r; try discriminate.
  destruct (_ && _); [|discriminate]. intros [= _ <-].
  now exists (String a (String b (String c (String d "")))).
Qed.

Lemma eats_directives :
  Forall eats Py.re_m /\ Forall eats Py.re_d /\ Forall eats Py.re_H.
Proof.
  repeat split; repeat constructor;
    auto using eats_one, eats_two, eats_blank_then.
Qed.

Lemma last_char_app x : forall r,
  r <> "" -> last_char (x ++ r) = last_char r.
Proof.
  induction x as [|c x IH]; intros r Hr; [reflexivity|].
  change (String c x ++ r)%string with (String c (x ++ r)%string).
  cbn [last_char]. rewrite (IH r Hr).
  destruct (x ++ r)%string eqn:E; [|reflexivity].
  destruct x; simpl in E; [congruence|discriminate].
Qed.

Lemma ends_digit_app x r : ends_digit r -> ends_digit (x ++ r).
Proof.
  intros [c [Hc Hd]]. exists c. split; [|exact Hd].
  rewrite last_char_app; [exact Hc|]. intros ->. discriminate.
Qed.

Lemma ends_digit_re_M a s v :
  In a Py.re_M -> a s = Some (v, "") -> ends_digit s.
Proof.
  intros [<-|[<-|[]]].
  - destruct s as [|c [|d s]]; simpl; try discriminate.
    destruct (Py.is1 0 5 c && Py.isdigit d) eqn:E; [|discriminate].
    intros [= _ ->]. apply andb_true_iff in E. exists d. tauto.
  - destruct s as [|c s]; simpl; [discriminate|].
    destruct (Py.isdigit c) eqn:E; [|discriminate].
    intros [= _ ->]. exists c. auto.
Qed.

(** A string the pattern matches to its end ends in a digit of the
    minutes. *)
Lemma regex_match_ends_digit s y m d h mi :
  Py.regex_match s = Some (y, m, d, h, mi, "") -> ends_digit s.
Proof.
  destruct eats_directives as [Em [Ed EH]]. pose proof eats_re_Y as EY.
  rewrite Forall_forall in Em, Ed, EH, EY.
  unfold Py.regex_match. intros H.
  apply alt_inv in H as [a1 [v1 [s1 [I1 [A1 H]]]]].
  destruct (EY _ I1 _ _ _ A1) as [x1 ->]. apply ends_digit_app.
  apply lit_inv in H as [s2 [-> H]].
  apply (ends_digit_app (String "-" "")).
  apply alt_inv in H as [a3 [v3 [s3 [I3 [A3 H]]]]].
  destruct (Em _ I3 _ _ _ A3) as [x3 ->]. apply ends_digit_app.
  apply lit_inv in H as [s4 [-> H]].
  apply (ends_digit_app (String "-" "")).
  apply alt_inv in H as [a5 [v5 [s5 [I5 [A5 H]]]]].
  destruct (Ed _ I5 _ _ _ A5) as [x5 ->]. apply ends_digit_app.
  apply spaces_inv in H as [x6 [s6 [-> H]]]. apply ends_digit_app.
  apply alt_inv in H as [a7 [v7 [s7 [I7 [A7 H]]]]].
  destruct (EH _ I7 _ _ _ A7) as [x7 ->]. apply ends_digit_app.
  apply lit_inv in H as [s8 [-> H]].
  apply (ends_digit_app (String ":" "")).
  apply alt_inv in H as [a9 [v9 [s9 [I9 [A9 H]]]]].
  injection H as _ _ _ _ _ ->. exact (ends_digit_re_M _ _ _ I9 A9).
Qed.

Lemma strptime_ends_digit s d : Py.strptime s = Some d -> ends_digit s.
Proof.
  unfold Py.strptime.
  destruct (Py.regex_match s) as [[[[[[y m] dd] hh] mi] rest]|] eqn:E;
    [|discriminate].
  destruct rest; [|discriminate]. intros _.
  exact (regex_match_ends_digit _ _ _ _ _ _ E).
Qed.

Lemma last_char_snoc s c : last_char (s ++ String c "") = Some c.
Proof. rewrite last_char_app; [reflexivity|discriminate]. Qed.

Lemma parse_blank_time f : parse_datetime f "" = None.
Proof.
  unfold parse_datetime.
  destruct (Py.strptime _) as [d|] eqn:E; [|reflexivity].
  apply strptime_ends_digit in E as [c [Hc Hd]].
  change (" " ++ "")%string with (String " " "") in Hc.
  rewrite last_char_snoc in Hc. injection Hc as <-. discriminate.
Qed.

Lemma parse_blank_date h : parse_datetime "" h = None.
Proof.
  unfold parse_datetime. change ("" ++ " " ++ h)%string with (String " " h).
  now destruct h as [|a [|b [|c r]]].
Qed.

(** X18. A booking for a registered patient whose date or time field is
    missing or blank answers InvalidDateTimeError and changes nothing,
    whatever the other field holds. *)
Theorem blank_date_or_time st p f h m :
  Py.contains (paciente_id_of p) (patients st) = true ->
  Py.strip (Py.form_get f "") = "" \/ Py.strip (Py.form_get h "") = "" ->
  create_appointment st p f h m = (st, Failed InvalidDateTimeError).
Proof.
  intros K B. unfold create_appointment. rewrite K. cbn [negb].
  destruct B as [-> | ->];
    [rewrite parse_blank_date|rewrite parse_blank_time]; reflexivity.
Qed.

Lemma blank_date_or_time_witness :
  create_appointment demo_store (Some "1") (Some "2025-03-10") None
                     (Some "Dr. Lopez")
  = (demo_store, Failed InvalidDateTimeError).
Proof.
  apply blank_date_or_time.
  - vm_compute. reflexivity.
  - right. vm_compute. reflexivity.
Defined.

(** *** The values of the booking form's date and time controls *)

Lemma digit_char_code n :
  0 <= n <= 9 -> Py.code (digit_char n) = (48 + Z.to_N n)%N.
Proof.
  intros H. unfold Py.code, digit_char. apply N_ascii_embedding. lia.
Qed.

Lemma digit_char_digit n : 0 <= n <= 9 -> Py.isdigit (digit_char n) = true.
Proof.
  intros H. unfold Py.isdigit, Py.in_range. rewrite (digit_char_code n H).
  apply andb_true_iff. split; apply N.leb_le; lia.
Qed.

Lemma digit_char_val n : 0 <= n <= 9 -> Py.digit_val (digit_char n) = n.
Proof.
  intros H. unfold Py.digit_val. rewrite (digit_char_code n H). lia.
Qed.

Lemma digit_char_not_space n :
  0 <= n <= 9 -> Py.isspace (digit_char n) = false.
Proof.
  intros H. unfold Py.isspace, Py.in_range. rewrite (digit_char_code n H).
  rewrite !orb_false_iff, !andb_false_iff, !N.leb_gt, !N.eqb_neq. lia.
Qed.

Lemma lit_hit {R} ch r (k : string -> option R) :
  Py.lit ch (String ch r) k = k r.
Proof. simpl. now rewrite Ascii.eqb_refl. Qed.

Lemma spaces_single {R} c r (k : string -> option R) res :
  Py.isspace c = false ->
  k (String c r) = Some res ->
  Py.spaces (String " " (String c r)) k = Some res.
Proof.
  intros Hc Hk. change (Py.spaces (String " " (String c r)) k)
    with (match Py.spaces (String c r) k with
          | Some x => Some x
          | None => k (String c r)
          end).
  simpl. now rewrite Hc, Hk.
Qed.

Lemma hit_re_Y y {R} (k : Z -> string -> option R) rest res :
  0 <= y <= 9999 ->
  k y rest = Some res ->
  Py.alt Py.re_Y (pad4 y ++ rest) k = Some res.
Proof.
  intros Hy Hk. unfold Py.re_Y, pad4, pad2. cbn [Py.alt String.append].
  rewrite !digit_char_digit, !digit_char_val
    by (Z.to_euclidean_division_equations; lia).
  cbn [andb].
  replace (1000 * (y / 1000) + 100 * (y / 100 mod 10)
           + 10 * (y mod 100 / 10) + y mod 100 mod 10) with y
    by (Z.to_euclidean_division_equations; lia).
  now rewrite Hk.
Qed.

(** Each value of a range in turn. *)
Ltac each_value n hi tac :=
  let k := fresh "k" in
  let Hk := fresh "Hk" in
  assert (exists k : nat, n = Z.of_nat k /\ (k <= hi)%nat) as [k [-> Hk]]
    by (exists (Z.to_nat n); lia);
  do 60 (try (destruct k as [|k]; [tac|])); exfalso; lia.

Ltac by_evaluation Hk :=
  vm_compute in Hk; vm_compute; rewrite Hk; reflexivity.

Lemma hit_re_m n {R} (k : Z -> string -> option R) rest res :
  1 <= n <= 12 ->
  k n rest = Some res ->
  Py.alt Py.re_m (pad2 n ++ rest) k = Some res.
Proof.
  intros Hn Hk. each_value n 12%nat ltac:(try lia; by_evaluation Hk).
Qed.

Lemma hit_re_d n {R} (k : Z -> string -> option R) rest res :
  1 <= n <= 31 ->
  k n rest = Some res ->
  Py.alt Py.re_d (pad2 n ++ rest) k = Some res.
Proof.
  intros Hn Hk. each_value n 31%nat ltac:(try lia; by_evaluation Hk).
Qed.

Lemma hit_re_H n {R} (k : Z -> string -> option R) rest res :
  0 <= n <= 23 ->
  k n rest = Some res ->
  Py.alt Py.re_H (pad2 n ++ rest) k = Some res.
Proof.
  intros Hn Hk. each_value n 23%nat ltac:(try lia; by_evaluation Hk).
Qed.

Lemma hit_re_M n {R} (k : Z -> string -> option R) rest res :
  0 <= n <= 59 ->
  k n rest = Some res ->
  Py.alt Py.re_M (pad2 n ++ rest) k = Some res.
Proof.
  intros Hn Hk. each_value n 59%nat ltac:(try lia; by_evaluation Hk).
Qed.

(** X19. The date and time controls of the booking form submit a date as four
    digits, two and two, and a time as two and two: every such pair that
    names a day of the calendar parses, to that very day, hour and
    minute. *)
Theorem form_values_parse y m d h mi :
  1 <= y <= 9999 ->
  1 <= m <= 12 ->
  1 <= d <= Py.days_in_month y m ->
  0 <= h <= 23 ->
  0 <= mi <= 59 ->
  parse_datetime (iso_date y m d) (iso_time h mi)
  = Some (Py.mkDatetime y m d h mi).
Proof.
  intros Hy Hm Hd Hh Hmi.
  assert (Py.days_in_month y m <= 31) as H31.
  { unfold Py.days_in_month.
    destruct (m =? 2); [destruct (Py.is_leap y); lia|].
    destruct (_ || _); lia. }
  unfold parse_datetime, Py.strptime.
  assert (Py.regex_match (iso_date y m d ++ " " ++ iso_time h mi)
          = Some (y, m, d, h, mi, "")) as ->.
  { change (iso_date y m d ++ " " ++ iso_time h mi)%string
      with (pad4 y
            ++ String "-"
                 (pad2 m
                  ++ String "-"
                       (pad2 d
                        ++ String " "
                             (pad2 h ++ String ":" (pad2 mi ++ "")))))%string.
    unfold Py.regex_match.
    apply hit_re_Y; [lia|]. rewrite lit_hit.
    apply hit_re_m; [lia|]. rewrite lit_hit.
    apply hit_re_d; [lia|].
    apply spaces_single;
      [apply digit_char_not_space; Z.to_euclidean_division_equations; lia|].
    apply (hit_re_H h); [lia|]. rewrite lit_hit.
    apply (hit_re_M mi); [lia|]. reflexivity. }
  unfold Py.make_datetime.
  assert ((1 <=? y) && (y <=? 9999) && (1 <=? m) && (m <=? 12) && (1 <=? d)
          && (d <=? Py.days_in_month y m) && (0 <=? h) && (h <=? 23)
          && (0 <=? mi) && (mi <=? 59) = true) as ->; [|reflexivity].
  rewrite !andb_true_iff, !Z.leb_le. lia.
Qed.

Lemma form_values_parse_witness :
  parse_datetime "2024-02-29" "07:05" = Some (Py.mkDatetime 2024 2 29 7 5).
Proof.
  apply (form_values_parse 2024 2 29 7 5); vm_compute; split; discriminate.
Defined.

(** *** The values of the patient selector *)

Example str_of_int_samples :
  map str_of_int [ 0; 7; 10; 42; 1001; -5; 4300 ]
  = [ "0"; "7"; "10"; "42"; "1001"; "-5"; "4300" ].
Proof. vm_compute. reflexivity. Qed.

Lemma digit_not_int_space c : Py.isdigit c = true -> Py.int_space c = false.
Proof.
  unfold Py.isdigit, Py.int_space, Py.in_range.
  rewrite andb_true_iff, !N.leb_le.
  rewrite !orb_false_iff, !andb_false_iff, !N.leb_gt, !N.eqb_neq. lia.
Qed.

Lemma rstrip_all_digits s :
  all_digits s = true -> Py.rstrip_by Py.int_space s = s.
Proof.
  induction s as [|c s IH]; [reflexivity|]. simpl.
  rewrite andb_true_iff. intros [Hc Hs]. rewrite (IH Hs).
  destruct s; [|reflexivity]. now rewrite (digit_not_int_space c Hc).
Qed.

Lemma int_all_digits c r :
  all_digits (String c r) = true ->
  Py.int (String c r) = Py.int_unsigned (String c r).
Proof.
  intros H. unfold Py.int, Py.strip_by.
  assert (Py.isdigit c = true) as Hc
    by (simpl in H; apply andb_true_iff in H; tauto).
  cbn [Py.lstrip_by]. rewrite (digit_not_int_space c Hc).
  rewrite (rstrip_all_digits _ H). revert Hc. clear H.
  destruct c as [[] [] [] [] [] [] [] []]; intros Hc;
    try reflexivity; vm_compute in Hc; discriminate.
Qed.

Lemma digits_of_all_digits fuel : forall n tail,
  0 <= n -> all_digits tail = true -> all_digits (digits_of fuel n tail) = true.
Proof.
  induction fuel as [|fuel IH]; intros n tail Hn Ht; [exact Ht|].
  cbn [digits_of].
  assert (all_digits (String (digit_char (n mod 10)) tail) = true) as Ht'.
  { cbn [all_digits]. rewrite Ht, digit_char_digit; [reflexivity|].
    Z.to_euclidean_division_equations; lia. }
  destruct (n <? 10); [exact Ht'|]. apply IH; [|exact Ht'].
  Z.to_euclidean_division_equations; lia.
Qed.

Lemma digits_of_cons fuel : forall n tail c r,
  tail = String c r -> exists c' r', digits_of fuel n tail = String c' r'.
Proof.
  induction fuel as [|fuel IH]; intros n tail c r ->; cbn [digits_of]; eauto.
  destruct (n <? 10); eauto.
Qed.

(** Reading back the digits written: the value, and no more digits read
    than the fuel allowed. *)
Lemma int_body_digits_of fuel : forall n tail,
  0 <= n < 10 ^ Z.of_nat (S fuel) ->
  exists cnt,
    (1 <= cnt <= N.of_nat (S fuel))%N
    /\ Py.int_body (digits_of (S fuel) n tail) false 0 0
       = Py.int_body tail true n cnt.
Proof.
  induction fuel as [|fuel IH]; intros n tail Hn;
    assert (0 <= n mod 10 <= 9) as Hd
      by (Z.to_euclidean_division_equations; lia);
    cbn [digits_of]; destruct (Z.ltb_spec n 10) as [Hlt|Hge].
  - exists 1%N. split; [lia|]. cbn [Py.int_body].
    rewrite (digit_char_digit _ Hd), (digit_char_val _ Hd).
    do 2 f_equal. Z.to_euclidean_division_equations; lia.
  - change (10 ^ Z.of_nat 1) with 10 in Hn. lia.
  - exists 1%N. split; [lia|]. cbn [Py.int_body].
    rewrite (digit_char_digit _ Hd), (digit_char_val _ Hd).
    do 2 f_equal. Z.to_euclidean_division_equations; lia.
  - assert (0 <= n / 10 < 10 ^ Z.of_nat (S fuel)) as Hq.
    { rewrite (Nat2Z.inj_succ (S fuel)), Z.pow_succ_r in Hn by lia.
      Z.to_euclidean_division_equations; lia. }
    destruct (IH (n / 10) (String (digit_char (n mod 10)) tail) Hq)
      as [cnt [Hc E]].
    exists (cnt + 1)%N. split; [lia|].
    cbn [digits_of] in E. rewrite E. cbn [Py.int_body].
    rewrite (digit_char_digit _ Hd), (digit_char_val _ Hd).
    f_equal. Z.to_euclidean_division_equations; lia.
Qed.

Lemma int_str_of_int k :
  0 <= k < 2 ^ 4300 -> Py.int (str_of_int k) = Some k.
Proof.
  intros Hk. unfold str_of_int.
  destruct (Z.ltb_spec k 0) as [Hneg|_]; [lia|].
  set (fuel := Z.to_nat (Z.log2 k)).
  assert (Z.log2 k < 4300) as Hlog.
  { destruct (Z.eq_dec k 0) as [->|Hz]; [reflexivity|].
    apply Z.log2_lt_pow2; lia. }
  assert (0 <= Z.log2 k) as Hlog0 by apply Z.log2_nonneg.
  assert (0 <= k < 10 ^ Z.of_nat (S fuel)) as Hfuel.
  { split; [lia|]. subst fuel. rewrite Nat2Z.inj_succ, Z2Nat.id by lia.
    destruct (Z.eq_dec k 0) as [->|Hz]; [reflexivity|].
    apply Z.lt_le_trans with (2 ^ Z.succ (Z.log2 k)).
    - apply Z.log2_spec. lia.
    - apply Z.pow_le_mono_l. lia. }
  assert (exists c r, digits_of (S fuel) k "" = String c r) as [c [r E]].
  { cbn [digits_of]. destruct (k <? 10); [eauto|].
    eapply digits_of_cons. reflexivity. }
  pose proof (digits_of_all_digits (S fuel) k "" (proj1 Hfuel) eq_refl)
    as Hall.
  destruct (int_body_digits_of fuel k "" Hfuel) as [cnt [Hc Hb]].
  rewrite E in Hall. rewrite E, (int_all_digits c r Hall), <- E.
  unfold Py.int_unsigned. rewrite Hb. cbn [Py.int_body].
  assert ((Py.max_str_digits <? cnt)%N = false) as ->; [|reflexivity].
  apply N.ltb_ge. unfold Py.max_str_digits. subst fuel. lia.
Qed.

(** X20. The booking form offers each registered patient under the decimal
    writing of its identifier; read back by [create_appointment], that
    value gives the identifier again, so a patient chosen in the form
    passes the patient check. *)
Theorem selector_value_accepted st k p :
  reachable st ->
  In (k, p) (patients st) ->
  k < 2 ^ 4300 ->
  paciente_id_of (Some (str_of_int k)) = k
  /\ forall f h m,
       snd (create_appointment st (Some (str_of_int k)) f h m)
       <> Failed InvalidPatientError.
Proof.
  intros R Hin Hk.
  assert (1 <= k) as H1.
  { pose proof (wf_pids st (reachable_wf st R)) as Hb.
    rewrite Forall_forall in Hb.
    assert (In k (Py.keys (patients st))) as Hk'
      by (change k with (fst (k, p)); now apply in_map).
    specialize (Hb _ Hk'). lia. }
  assert (paciente_id_of (Some (str_of_int k)) = k) as E.
  { unfold paciente_id_of. cbn [Py.form_get].
    rewrite int_str_of_int; [reflexivity|lia]. }
  split; [exact E|]. intros f h m. unfold create_appointment. rewrite E.
  assert (Py.contains k (patients st) = true) as ->.
  { apply contains_In. change k with (fst (k, p)). now apply in_map. }
  cbn [negb]. destruct (parse_datetime _ _); [|discriminate].
  destruct (negb (Py.truthy _)); [discriminate|].
  destruct (has_conflict _ _ _ _ _); discriminate.
Qed.

Lemma selector_value_accepted_witness :
  reachable (seed_demo init) /\ paciente_id_of (Some (str_of_int 2)) = 2.
Proof.
  assert (reachable (seed_demo init)) as R
    by (exists (seed_demo init), []; split; [right|]; reflexivity).
  split; [exact R|].
  apply (selector_value_accepted (seed_demo init) 2
           (mkPatient "Ana Ruiz" "CC-1002" "3000000002" "ana@example.com") R).
  - vm_compute. auto.
  - vm_compute. reflexivity.
Defined.

(** *** The registry only grows *)

Lemma handle_keeps_patients st rq k p :
  wf st ->
  Py.get k (patients st) = Some p ->
  Py.get k (patients (fst (handle st rq))) = Some p.
Proof.
  intros W H. destruct rq; simpl.
  - unfold create_patient. destruct (negb _); [exact H|].
    destruct (documento_taken _ _); [exact H|]. cbn [fst patients].
    rewrite get_set_other; [exact H|]. intros ->.
    apply get_contains in H.
    rewrite (bound_fresh _ _ (wf_pids st W)) in H. discriminate.
  - unfold create_appointment.
    destruct (negb (Py.contains _ _)); [exact H|].
    destruct (parse_datetime _ _); [|exact H].
    destruct (negb (Py.truthy _)); [exact H|].
    destruct (has_conflict _ _ _ _ _); exact H.
  - rewrite cancel_appointment_eq. destruct (Py.contains _ _); exact H.
Qed.

(** X21. A registered patient stays registered, under the same identifier and
    with the same four fields, whatever requests follow: no handler
    rewrites or deletes a patient. *)
Theorem patients_are_permanent st k p rqs :
  reachable st ->
  Py.get k (patients st) = Some p ->
  Py.get k (patients (fst (run st rqs))) = Some p.
Proof.
  intros R. apply reachable_wf in R. revert st R.
  induction rqs as [|rq rqs IH]; intros st W H; simpl; [exact H|].
  pose proof (handle_wf st rq W) as W1.
  pose proof (handle_keeps_patients st rq k p W H) as H1.
  destruct (handle st rq) as [st1 r]. simpl in W1, H1.
  specialize (IH st1 W1 H1). destruct (run st1 rqs) as [st2 rs]. exact IH.
Qed.

Lemma patients_are_permanent_witness :
  reachable (fst (run init [juan]))
  /\ Py.get 1 (patients demo_store)
     = Some (mkPatient "Juan Perez" "CC-1001" "3000000001" "juan@example.com").
Proof.
  assert (reachable (fst (run init [juan]))) as R
    by (exists init, [juan]; split; [left|]; reflexivity).
  split; [exact R|].
  apply (patients_are_permanent (fst (run init [juan])) 1 _
           (List.tl demo) R).
  vm_compute. reflexivity.
Defined.
